(** * PredictionView: the drug-spending front end

    A shallow embedding of [frontend/script.js] (the page script: fetch the
    prediction dataset, fill the table and the drug filter, render the charts
    on request, filter the table) and of the older stand-alone table script
    (the unnamed source file), together with the properties stated about
    them.

    JavaScript numbers are IEEE 754 binary64 values: they are Rocq's
    primitive floats here, [+] is [PrimFloat.add], and [toFixed(2)] works on
    the exact value of the double, as ECMA-262 prescribes.  A JavaScript
    object is the list of its own properties in creation order;
    [Object.keys] reorders it as the language does.  A table row is built by
    assigning a template string to its [innerHTML]: the string is modelled
    character for character, and the cells are what the HTML parser makes of
    it.  Handlers run in a state and exception monad over the part of the page
    the scripts touch. *)

From Stdlib Require Import List String Ascii ZArith NArith Lia Bool Permutation.
From Stdlib Require Import PrimFloat SpecFloat FloatOps Uint63 DecimalString.
From Stdlib Require Import Sorted.
Import ListNotations.
Open Scope string_scope.

(** ** JavaScript values the scripts compute with *)

(** Errors that can be thrown or that reject a promise. *)
Inductive JsError : Type :=
| TypeError (message : string)
| SyntaxError (message : string)
| LibraryError (message : string).

(** The outcome of running a piece of code. *)
Inductive completion (A : Type) : Type :=
| Normal (a : A)
| Throw (e : JsError).
Arguments Normal {A} a.
Arguments Throw {A} e.

(** The state a promise settles in. *)
Inductive settled (A : Type) : Type :=
| Fulfilled (a : A)
| Rejected (e : JsError).
Arguments Fulfilled {A} a.
Arguments Rejected {A} e.

Module JsNumber.

(** Decimal digits of a natural number, no leading zero ("0" for zero). *)
Definition digits (n : N) : string := NilZero.string_of_uint (N.to_uint n).

Definition sign (negative : bool) : string := if negative then "-" else "".

(** The integer [n] for which [n / 100] is closest to [m * 2^e], the larger
    one on a tie ([toFixed], step "Let n be an integer for which n / 10^f - x
    is as close to zero as possible"). *)
Definition nearest_hundredth (m : positive) (e : Z) : N :=
  if (0 <=? e)%Z
  then Z.to_N (Z.pos m * 2 ^ e * 100)
  else Z.to_N ((200 * Z.pos m + 2 ^ (- e)) / (2 * 2 ^ (- e))).

Fixpoint zeros (k : nat) : string :=
  match k with
  | O => ""
  | S k' => "0" ++ zeros k'
  end.

(** Steps 11.b and 11.c of [toFixed] with f = 2: the digits of [n], padded
    with zeros to three characters, with a point before the last two. *)
Definition fixed2 (n : N) : string :=
  let m := digits n in
  let k := String.length m in
  let m := if Nat.leb k 2 then zeros (3 - k) ++ m else m in
  let k := if Nat.leb k 2 then 3 else k in
  substring 0 (k - 2) m ++ "." ++ substring (k - 2) 2 m.

(** [m * 2^e] is an integer of magnitude at most 2^53: the doubles whose
    shortest decimal form is the integer's own digits. *)
Definition safe_integer (m : positive) (e : Z) : option N :=
  if (0 <=? e)%Z
  then if (Z.pos m * 2 ^ e <=? 2 ^ 53)%Z then Some (Z.to_N (Z.pos m * 2 ^ e)) else None
  else if (Z.pos m mod 2 ^ (- e) =? 0)%Z then Some (Z.to_N (Z.pos m / 2 ^ (- e))) else None.

(** [Math.floor]. *)
Definition Math_floor (x : float) : float :=
  match Prim2SF x with
  | S754_finite s m e =>
      if (0 <=? e)%Z then x
      else
        let q := (Z.pos m / 2 ^ (- e))%Z in
        let whole := (Z.pos m mod 2 ^ (- e) =? 0)%Z in
        if s
        then PrimFloat.opp (PrimFloat.of_uint63 (Uint63.of_Z (if whole then q else q + 1)))
        else PrimFloat.of_uint63 (Uint63.of_Z q)
  | _ => x
  end.

Section Printing.

(** [Number::toString] leaves the choice of digits to the implementation
    when a double is not an integer of magnitude at most 2^53 (any shortest
    decimal that reads back as the double will do): that part is a
    parameter, applied to positive finite doubles only. *)
Variable shortest_decimal : float -> string.

(** [Number::toString(x)]. *)
Definition Number_toString (x : float) : string :=
  match Prim2SF x with
  | S754_nan => "NaN"
  | S754_zero _ => "0"
  | S754_infinity s => sign s ++ "Infinity"
  | S754_finite s m e =>
      match safe_integer m e with
      | Some n => sign s ++ digits n
      | None => sign s ++ shortest_decimal (PrimFloat.abs x)
      end
  end.

(** [x.toFixed(2)]; it throws for no number. *)
Definition toFixed2 (x : float) : string :=
  match Prim2SF x with
  | S754_nan => "NaN"
  | S754_infinity s => sign s ++ "Infinity"
  | S754_zero _ => fixed2 0
  | S754_finite s m e =>
      if ((0 <=? e) && (10 ^ 21 <=? Z.pos m * 2 ^ e))%Z
      then sign s ++ Number_toString (PrimFloat.abs x)
      else sign s ++ fixed2 (nearest_hundredth m e)
  end.

End Printing.

End JsNumber.

Module JsObject.

Section Obj.
Context {V : Type}.

(** Own properties, oldest first. *)
Definition t : Type := list (string * V).

(** [o[k]] for an own property: [None] when [o] has no such property (the
    scripts read the keys that [Object.keys] gave them, and nothing that is
    inherited). *)
Fixpoint get (k : string) (o : t) : option V :=
  match o with
  | [] => None
  | (k', v) :: rest => if String.eqb k k' then Some v else get k rest
  end.

(** [o[k] = v]: an existing property keeps its place. *)
Fixpoint set (k : string) (v : V) (o : t) : t :=
  match o with
  | [] => [(k, v)]
  | (k', v') :: rest =>
      if String.eqb k k' then (k, v) :: rest else (k', v') :: set k v rest
  end.

(** [o[k] = v] for an object [o] made by an object literal and a [v] that
    is a number.  The key "__proto__" is not defined on [o] but inherited
    from [Object.prototype] as an accessor, and its setter ignores a value
    that is neither an object nor [null]; every other key is an own property
    of [o] from then on. *)
Definition assign (k : string) (v : V) (o : t) : t :=
  if String.eqb k "__proto__" then o else set k v o.

End Obj.
Arguments t V : clear implicits.

Definition is_digit (c : ascii) : bool :=
  (48 <=? nat_of_ascii c)%nat && (nat_of_ascii c <=? 57)%nat.

Fixpoint parse_digits (s : string) (acc : N) : option N :=
  match s with
  | EmptyString => Some acc
  | String c rest =>
      if is_digit c
      then parse_digits rest (acc * 10 + (N_of_ascii c - 48))%N
      else None
  end.

(** An array index is a canonical numeric string below 2^32 - 1. *)
Definition array_index (k : string) : option N :=
  match k with
  | EmptyString => None
  | String c rest =>
      if Ascii.eqb c "0"
      then match rest with EmptyString => Some 0%N | _ => None end
      else match parse_digits k 0 with
           | Some n => if (n <? 4294967295)%N then Some n else None
           | None => None
           end
  end.

Fixpoint insert_index (x : N * string) (l : list (N * string)) : list (N * string) :=
  match l with
  | [] => [x]
  | y :: rest => if (fst x <=? fst y)%N then x :: l else y :: insert_index x rest
  end.

Definition sort_index (l : list (N * string)) : list (N * string) :=
  fold_right insert_index [] l.

Definition index_keys (ks : list string) : list (N * string) :=
  flat_map (fun k => match array_index k with Some n => [(n, k)] | None => [] end) ks.

Definition string_keys (ks : list string) : list string :=
  filter (fun k => match array_index k with Some _ => false | None => true end) ks.

(** [Object.keys(o)]: array indices in ascending order, then the other
    keys in creation order. *)
Definition keys {V : Type} (o : t V) : list string :=
  map snd (sort_index (index_keys (map fst o))) ++ string_keys (map fst o).

(** [Object.values(o)], in the order of [Object.keys]. *)
Definition values {V : Type} (o : t V) : list V :=
  flat_map (fun k => match get k o with Some v => [v] | None => [] end) (keys o).

(** The keys of an object are distinct. *)
Definition wf {V : Type} (o : t V) : Prop := NoDup (map fst o).

End JsObject.

Module Html.

(** What the HTML fragment parser makes of a string assigned to the
    [innerHTML] of a [tr], for the strings the two scripts build when the
    interpolated values hold no markup, and for one kind of markup: a
    [textarea] that is opened in a cell and never closed.  The result is the
    [textContent] of each cell of the row ([row.cells]), in order.  Other
    strings are left to the browser ([None] here). *)

Definition LF : string := String "010"%char EmptyString.

Fixpoint spaces (n : nat) : string :=
  match n with
  | O => ""
  | S n' => String " "%char (spaces n')
  end.

(** White space between the cells of a row: tab, line feed, form feed and
    space.  It becomes a text node of the row, not a cell.  (A carriage
    return is replaced before the tokenizer sees it, so it is not listed.) *)
Definition is_space (c : ascii) : bool :=
  Ascii.eqb c "009" || Ascii.eqb c "010" || Ascii.eqb c "012" || Ascii.eqb c " ".

(** A character that reaches a cell as it is: it starts neither a tag nor a
    character reference, and is neither NUL (which the parser drops) nor a
    carriage return (which the input stream replaces). *)
Definition text_char (c : ascii) : bool :=
  negb (Ascii.eqb c "<" || Ascii.eqb c "&" || Ascii.eqb c "000" || Ascii.eqb c "013").

(** A string without markup. *)
Fixpoint plain (s : string) : bool :=
  match s with
  | EmptyString => true
  | String c rest => text_char c && plain rest
  end.

Fixpoint strip_prefix (p s : string) : option string :=
  match p, s with
  | EmptyString, _ => Some s
  | String a p', String b s' => if Ascii.eqb a b then strip_prefix p' s' else None
  | String _ _, EmptyString => None
  end.

(** The text of a cell up to the next tag, and the input from that tag
    on. *)
Fixpoint scan_text (s : string) : option (string * string) :=
  match s with
  | EmptyString => Some (EmptyString, EmptyString)
  | String c rest =>
      if Ascii.eqb c "<" then Some (EmptyString, s)
      else if text_char c then
        match scan_text rest with
        | Some (text, after) => Some (String c text, after)
        | None => None
        end
      else None
  end.

Definition lower (c : ascii) : ascii :=
  let n := nat_of_ascii c in
  if Nat.leb 65 n && Nat.leb n 90 then ascii_of_nat (n + 32) else c.

(** [s] starts with [p], letter case apart ([p] is in lower case). *)
Fixpoint starts_with (p s : string) : bool :=
  match p, s with
  | EmptyString, _ => true
  | String a p', String b s' => Ascii.eqb a (lower b) && starts_with p' s'
  | String _ _, EmptyString => false
  end.

(** The content of a [textarea] that runs to the end of the input: the
    tokenizer is in its RCDATA state, where a tag is text unless it is the
    end tag of the [textarea] itself, and where character references are
    still replaced. *)
Fixpoint rcdata (s : string) : bool :=
  match s with
  | EmptyString => true
  | String c rest =>
      negb (Ascii.eqb c "&" || Ascii.eqb c "000" || Ascii.eqb c "013")
      && negb (starts_with "</textarea" s)
      && rcdata rest
  end.

(** A line feed right after the start tag of a [textarea] is ignored. *)
Definition textarea_content (s : string) : string :=
  match s with
  | String c rest => if Ascii.eqb c "010" then rest else s
  | EmptyString => s
  end.

(** One step on the input [s], between cells; [cells_of] reads the cells
    of the input that the step leaves.  White space is skipped and a [td]
    start tag opens a cell; in the cell, text runs to the next tag, the [td]
    end tag closes the cell, and a [textarea] start tag takes the rest of the
    input as its text, which the cell then contains after its own. *)
Definition row_step (cells_of : string -> option (list string)) (s : string) :
    option (list string) :=
  match s with
  | EmptyString => Some []
  | String c rest =>
      if is_space c then cells_of rest
      else
        match strip_prefix "<td>" s with
        | None => None
        | Some inside =>
            match scan_text inside with
            | None => None
            | Some (text, after) =>
                match strip_prefix "</td>" after with
                | Some after' => option_map (cons text) (cells_of after')
                | None =>
                    match strip_prefix "<textarea>" after with
                    | Some content =>
                        if rcdata (textarea_content content)
                        then Some [text ++ textarea_content content]
                        else None
                    | None => None
                    end
                end
            end
        end
  end.

(** The cells of a row.  Every step consumes input; [fuel] bounds the
    steps. *)
Fixpoint row_cells (fuel : nat) : string -> option (list string) :=
  match fuel with
  | O => fun _ => None
  | S fuel' => row_step (row_cells fuel')
  end.

Definition fragment_cells (s : string) : option (list string) :=
  row_cells (S (String.length s)) s.

(** A parser for the strings left out: the cells it makes of a string
    assigned to the [innerHTML] of a row. *)
Record parser : Type := { cells_of : string -> list string }.

(** The template literal of both scripts: four cells, each on a line of its
    own indented by [indent] spaces, and a last line of [closing] spaces
    before the closing back quote. *)
Definition row_template (indent closing : nat) (drug year total avg : string) : string :=
  LF ++ spaces indent ++ "<td>" ++ drug ++ "</td>" ++
  LF ++ spaces indent ++ "<td>" ++ year ++ "</td>" ++
  LF ++ spaces indent ++ "<td>$" ++ total ++ "</td>" ++
  LF ++ spaces indent ++ "<td>$" ++ avg ++ "</td>" ++
  LF ++ spaces closing.

End Html.

(** ** The dataset and the page *)

(** A year label of the response: a JSON number or a JSON string. *)
Inductive year : Type :=
| YearNumber (x : float)
| YearString (s : string).

(** One drug's series, of the shape the scripts expect: the three arrays
    are there, every amount is a JSON number and every year label a JSON
    number or string.  The three arrays are meant to have one length; the
    type does not enforce it.  A body of another shape (an array that is
    missing, an amount that is [null]) is no value of this type: the
    properties below speak of bodies of this shape only. *)
Record DrugSeries : Type := {
  years : list year;
  total_spending : list float;
  avg_spending : list float
}.

(** The parsed response body: drug name to series. *)
Definition DatasetResponse : Type := JsObject.t DrugSeries.

Definition series_valid (s : DrugSeries) : Prop :=
  List.length (total_spending s) = List.length (years s) /\
  List.length (avg_spending s) = List.length (years s).

(** A valid response: distinct drug names, and in every series the three
    arrays have equal length. *)
Definition valid_response (data : DatasetResponse) : Prop :=
  JsObject.wf data /\ Forall series_valid (map snd data).

(** What [response.json()] finds in the body: text that is not JSON, or
    JSON of the shape above. *)
Inductive body : Type :=
| NotJson (message : string)
| Json (data : DatasetResponse).

Record Response : Type := { response_body : body }.

(** A [tr] element of the table body: the [textContent] of each of its
    cells ([row.cells]), as the HTML parser made them of the string assigned
    to [row.innerHTML], and its [style.display]. *)
Record tr : Type := {
  cells : list string;
  display : string
}.

(** An [option] element of the drug filter. *)
Record option_el : Type := {
  option_value : string;
  option_textContent : string
}.

(** An entry of [datasets] (line and bar charts). *)
Record dataset : Type := {
  label : string;
  data : list float;
  borderColor : string;
  backgroundColor : string;
  fill : bool
}.

(** The configuration a chart is constructed with. *)
Inductive chart : Type :=
| LineChart (labels : list year) (datasets : list dataset)
| BarChart (labels : list year) (datasets : list dataset)
| PieChart (labels : list string) (values : list float) (colors : list string).

(** The variables of the fetch continuation that the click listener closes
    over. *)
Record captured : Type := {
  labels : list year;
  datasets : list dataset;
  totalSpendingData : JsObject.t float
}.

(** The part of the page the scripts read and write. *)
Record page : Type := {
  tableBody : list tr;               (* rows of #table-body *)
  drugFilter : list option_el;       (* options of #drug-filter *)
  chartContainer_display : string;   (* #chart-container style.display *)
  click_listeners : list captured;   (* click listeners of #show-charts *)
  change_listeners : nat;            (* change listeners of #drug-filter *)
  charts : list chart;               (* Chart instances, oldest first *)
  console : list (string * JsError); (* console.error calls *)
  random_calls : nat;                (* Math.random calls made *)
  uncaught : list JsError;           (* errors no handler took *)
  fetch_pending : bool               (* the request has not settled *)
}.

Definition with_tableBody (rows : list tr) (p : page) : page :=
  {| tableBody := rows; drugFilter := drugFilter p;
     chartContainer_display := chartContainer_display p;
     click_listeners := click_listeners p; change_listeners := change_listeners p;
     charts := charts p; console := console p; random_calls := random_calls p;
     uncaught := uncaught p; fetch_pending := fetch_pending p |}.

Definition with_drugFilter (options : list option_el) (p : page) : page :=
  {| tableBody := tableBody p; drugFilter := options;
     chartContainer_display := chartContainer_display p;
     click_listeners := click_listeners p; change_listeners := change_listeners p;
     charts := charts p; console := console p; random_calls := random_calls p;
     uncaught := uncaught p; fetch_pending := fetch_pending p |}.

Definition with_chartContainer_display (d : string) (p : page) : page :=
  {| tableBody := tableBody p; drugFilter := drugFilter p;
     chartContainer_display := d;
     click_listeners := click_listeners p; change_listeners := change_listeners p;
     charts := charts p; console := console p; random_calls := random_calls p;
     uncaught := uncaught p; fetch_pending := fetch_pending p |}.

Definition with_click_listeners (l : list captured) (p : page) : page :=
  {| tableBody := tableBody p; drugFilter := drugFilter p;
     chartContainer_display := chartContainer_display p;
     click_listeners := l; change_listeners := change_listeners p;
     charts := charts p; console := console p; random_calls := random_calls p;
     uncaught := uncaught p; fetch_pending := fetch_pending p |}.

Definition with_change_listeners (n : nat) (p : page) : page :=
  {| tableBody := tableBody p; drugFilter := drugFilter p;
     chartContainer_display := chartContainer_display p;
     click_listeners := click_listeners p; change_listeners := n;
     charts := charts p; console := console p; random_calls := random_calls p;
     uncaught := uncaught p; fetch_pending := fetch_pending p |}.

Definition with_charts (l : list chart) (p : page) : page :=
  {| tableBody := tableBody p; drugFilter := drugFilter p;
     chartContainer_display := chartContainer_display p;
     click_listeners := click_listeners p; change_listeners := change_listeners p;
     charts := l; console := console p; random_calls := random_calls p;
     uncaught := uncaught p; fetch_pending := fetch_pending p |}.

Definition with_console (l : list (string * JsError)) (p : page) : page :=
  {| tableBody := tableBody p; drugFilter := drugFilter p;
     chartContainer_display := chartContainer_display p;
     click_listeners := click_listeners p; change_listeners := change_listeners p;
     charts := charts p; console := l; random_calls := random_calls p;
     uncaught := uncaught p; fetch_pending := fetch_pending p |}.

Definition with_random_calls (n : nat) (p : page) : page :=
  {| tableBody := tableBody p; drugFilter := drugFilter p;
     chartContainer_display := chartContainer_display p;
     click_listeners := click_listeners p; change_listeners := change_listeners p;
     charts := charts p; console := console p; random_calls := n;
     uncaught := uncaught p; fetch_pending := fetch_pending p |}.

Definition with_uncaught (l : list JsError) (p : page) : page :=
  {| tableBody := tableBody p; drugFilter := drugFilter p;
     chartContainer_display := chartContainer_display p;
     click_listeners := click_listeners p; change_listeners := change_listeners p;
     charts := charts p; console := console p; random_calls := random_calls p;
     uncaught := l; fetch_pending := fetch_pending p |}.

Definition with_fetch_pending (b : bool) (p : page) : page :=
  {| tableBody := tableBody p; drugFilter := drugFilter p;
     chartContainer_display := chartContainer_display p;
     click_listeners := click_listeners p; change_listeners := change_listeners p;
     charts := charts p; console := console p; random_calls := random_calls p;
     uncaught := uncaught p; fetch_pending := b |}.

(** ** Handlers: state and exceptions *)

Definition M (A : Type) : Type := page -> completion A * page.

Definition ret {A : Type} (a : A) : M A := fun p => (Normal a, p).

Definition throw {A : Type} (e : JsError) : M A := fun p => (Throw e, p).

Definition bind {A B : Type} (m : M A) (f : A -> M B) : M B :=
  fun p =>
    match m p with
    | (Normal a, p') => f a p'
    | (Throw e, p') => (Throw e, p')
    end.

Notation "x <- m ;; k" := (bind m (fun x => k))
  (at level 61, m at next level, right associativity).
Notation "m ;;; k" := (bind m (fun _ => k))
  (at level 61, right associativity).

(** [a.forEach((x, i) => f x i)], from index [i]. *)
Fixpoint forEach {A : Type} (f : A -> nat -> M unit) (a : list A) (i : nat) : M unit :=
  match a with
  | [] => ret tt
  | x :: rest => f x i ;;; forEach f rest (S i)
  end.

(** [forEach] whose callback assigns to variables of the enclosing
    function: their values are passed along. *)
Fixpoint forEach_with {A B : Type} (f : B -> A -> nat -> M B) (vars : B)
    (a : list A) (i : nat) : M B :=
  match a with
  | [] => ret vars
  | x :: rest => vars' <- f vars x i ;; forEach_with f vars' rest (S i)
  end.

(** The error of reading a property of [undefined]. *)
Definition undefined_property (property : string) : JsError :=
  TypeError ("Cannot read properties of undefined (reading '" ++ property ++ "')").

(** [v.property] is evaluated: [v] must not be [undefined]. *)
Definition defined {A : Type} (property : string) (v : option A) : M A :=
  match v with
  | Some a => ret a
  | None => throw (undefined_property property)
  end.

Definition appendRow (row : tr) : M unit :=
  fun p => (Normal tt, with_tableBody (tableBody p ++ [row]) p).

Definition appendOption (o : option_el) : M unit :=
  fun p => (Normal tt, with_drugFilter (drugFilter p ++ [o]) p).

Definition console_error (prefix : string) (e : JsError) : M unit :=
  fun p => (Normal tt, with_console (console p ++ [(prefix, e)]) p).

(** ** Promises *)

(** A reaction runs in the page when its promise has settled and gives the
    state of the promise that [then] or [catch] returned. *)
Definition reaction (B : Type) : Type := page -> settled B * page.

(** [p.then(f)] for an [f] that returns a plain value. *)
Definition then_ {A B : Type} (p : settled A) (f : A -> M B) : reaction B :=
  fun st =>
    match p with
    | Fulfilled a =>
        match f a st with
        | (Normal b, st') => (Fulfilled b, st')
        | (Throw e, st') => (Rejected e, st')
        end
    | Rejected e => (Rejected e, st)
    end.

(** [p.then(f)] for an [f] that returns a promise: its state is adopted. *)
Definition then_promise {A B : Type} (p : settled A) (f : A -> M (settled B)) : reaction B :=
  fun st =>
    match p with
    | Fulfilled a =>
        match f a st with
        | (Normal q, st') => (q, st')
        | (Throw e, st') => (Rejected e, st')
        end
    | Rejected e => (Rejected e, st)
    end.

(** [p.catch(h)]. *)
Definition catch_ {A : Type} (p : settled A) (h : JsError -> M A) : reaction A :=
  fun st =>
    match p with
    | Fulfilled a => (Fulfilled a, st)
    | Rejected e =>
        match h e st with
        | (Normal a, st') => (Fulfilled a, st')
        | (Throw e', st') => (Rejected e', st')
        end
    end.

(** A rejection that no reaction took reaches the page. *)
Definition unhandled {A : Type} (p : settled A) (st : page) : page :=
  match p with
  | Fulfilled _ => st
  | Rejected e => with_uncaught (uncaught st ++ [e]) st
  end.

(** [response.json()]. *)
Definition response_json (r : Response) : settled DatasetResponse :=
  match response_body r with
  | Json data => Fulfilled data
  | NotJson message => Rejected (SyntaxError message)
  end.

(** ** frontend/script.js *)

Section PredictionView.

(** The implementation's choice of digits in [Number::toString]. *)
Variable shortest_decimal : float -> string.

(** The successive results of [Math.random()]. *)
Variable Math_random : nat -> float.

(** [new Chart(ctx, config)] belongs to the charting library: given the
    charts constructed so far it constructs one more or throws. *)
Variable Chart_throws : list chart -> chart -> option JsError.

(** The browser's HTML parser, for the strings [Html.fragment_cells] leaves
    to it. *)
Variable browser : Html.parser.

Local Abbreviation Number_toString := (JsNumber.Number_toString shortest_decimal).
Local Abbreviation toFixed2 := (JsNumber.toFixed2 shortest_decimal).

(** A year label inside a template literal. *)
Definition ToString (y : year) : string :=
  match y with
  | YearNumber x => Number_toString x
  | YearString s => s
  end.

(** [a.reduce(f, init)]. *)
Definition reduce {A B : Type} (f : B -> A -> B) (init : B) (a : list A) : B :=
  fold_left f a init.

(** [a.map(f)] for an [f] with effects. *)
Fixpoint map_M {A B : Type} (f : A -> M B) (a : list A) : M (list B) :=
  match a with
  | [] => ret []
  | x :: rest => y <- f x ;; ys <- map_M f rest ;; ret (y :: ys)
  end.

Definition random : M float :=
  fun p => (Normal (Math_random (random_calls p)), with_random_calls (S (random_calls p)) p).

(** Lines 111-113. *)
Definition getRandomColor (opacity : float) : M string :=
  r <- random ;;
  g <- random ;;
  b <- random ;;
  ret ("rgba(" ++ Number_toString (JsNumber.Math_floor (r * 255)) ++ ", "
        ++ Number_toString (JsNumber.Math_floor (g * 255)) ++ ", "
        ++ Number_toString (JsNumber.Math_floor (b * 255)) ++ ", "
        ++ Number_toString opacity ++ ")").

(** The cells of a row whose [innerHTML] was set to [html]. *)
Definition innerHTML_cells (html : string) : list string :=
  match Html.fragment_cells html with
  | Some texts => texts
  | None => Html.cells_of browser html
  end.

(** The template literal of lines 27-32. *)
Definition row_innerHTML (drug year total avg : string) : string :=
  Html.row_template 24 20 drug year total avg.

(** Lines 26-32: a fresh [tr] whose content is parsed from the template. *)
Definition createRow (drug year total avg : string) : tr :=
  {| cells := innerHTML_cells (row_innerHTML drug year total avg); display := "" |}.

(** Lines 25-34, one year of one drug. *)
Definition per_year (drug : string) (totalSpending avgSpending : list float)
    (y : year) (i : nat) : M unit :=
  total <- defined "toFixed" (nth_error totalSpending i) ;;
  avg <- defined "toFixed" (nth_error avgSpending i) ;;
  appendRow (createRow drug (ToString y) (toFixed2 total) (toFixed2 avg)).

Definition no_variables : captured :=
  {| labels := []; datasets := []; totalSpendingData := [] |}.

(** Lines 18-53, one drug: the callback of [Object.keys(data).forEach]. *)
Definition per_drug (data : DatasetResponse) (vars : captured)
    (drug : string) (index : nat) : M captured :=
  series <- defined "years" (JsObject.get drug data) ;;
  let totalSpending := total_spending series in
  let labels' := if Nat.eqb index 0 then years series else labels vars in
  forEach (per_year drug totalSpending (avg_spending series)) (years series) 0 ;;;
  border <- getRandomColor 1 ;;
  background <- getRandomColor 0.5 ;;
  let datasets' :=
    (datasets vars ++
     [{| label := drug; data := totalSpending; borderColor := border;
         backgroundColor := background; fill := false |}])%list in
  appendOption {| option_value := drug; option_textContent := drug |} ;;;
  ret {| labels := labels';
         datasets := datasets';
         totalSpendingData :=
           JsObject.assign drug (reduce PrimFloat.add 0%float totalSpending)
             (totalSpendingData vars) |}.

(** Lines 14-53: the load transformation. *)
Definition transform (data : DatasetResponse) : M captured :=
  forEach_with (per_drug data) no_variables (JsObject.keys data) 0.

Definition new_Chart (config : chart) : M unit :=
  fun p =>
    match Chart_throws (charts p) config with
    | Some e => (Throw e, p)
    | None => (Normal tt, with_charts (charts p ++ [config]) p)
    end.

(** Lines 70-77. *)
Definition renderLineChart (labels : list year) (datasets : list dataset) : M unit :=
  new_Chart (LineChart labels datasets).

(** Lines 79-86. *)
Definition renderBarChart (labels : list year) (datasets : list dataset) : M unit :=
  new_Chart (BarChart labels datasets).

(** Lines 88-101; 0.7 is the double 0x1.6666666666666p-1. *)
Definition renderPieChart (totals : JsObject.t float) : M unit :=
  colors <- map_M (fun _ => getRandomColor 0x1.6666666666666p-1) (JsObject.keys totals) ;;
  new_Chart (PieChart (JsObject.keys totals) (JsObject.values totals) colors).

(** Lines 56-61: the click listener of the show-charts button. *)
Definition showCharts (vars : captured) : M unit :=
  (fun p => (Normal tt, with_chartContainer_display "block" p)) ;;;
  renderLineChart (labels vars) (datasets vars) ;;;
  renderBarChart (labels vars) (datasets vars) ;;;
  renderPieChart (totalSpendingData vars).

(** Lines 105-108, over the rows from the current one on. *)
Fixpoint filter_rows (selectedDrug : string) (rows : list tr) : completion unit * list tr :=
  match rows with
  | [] => (Normal tt, [])
  | row :: rest =>
      match nth_error (cells row) 0 with
      | None =>
          (Throw (undefined_property "textContent"), rows)
      | Some drugName =>
          let row' :=
            {| cells := cells row;
               display :=
                 if String.eqb selectedDrug "all" || String.eqb drugName selectedDrug
                 then "" else "none" |} in
          let (c, rest') := filter_rows selectedDrug rest in
          (c, row' :: rest')
      end
  end.

(** Lines 103-109. *)
Definition filterTable (selectedDrug : string) : M unit :=
  fun p =>
    let (c, rows) := filter_rows selectedDrug (tableBody p) in
    (c, with_tableBody rows p).

(** Lines 13-67: the continuation of the fetch. *)
Definition on_data (data : DatasetResponse) : M unit :=
  vars <- transform data ;;
  (fun p => (Normal tt, with_click_listeners (click_listeners p ++ [vars]) p)) ;;;
  (fun p => (Normal tt, with_change_listeners (S (change_listeners p)) p)).

(** Lines 11-68, once the request has settled: the promise chain. *)
Definition load_sequence (fetched : settled Response) (st : page) : page :=
  let (p1, st1) := then_promise fetched (fun r => ret (response_json r)) st in
  let (p2, st2) := then_ p1 on_data st1 in
  let (p3, st3) := catch_ p2 (console_error "Error fetching data:") st2 in
  unhandled p3 st3.

(** The page when the DOMContentLoaded handler has returned (lines 1-11):
    the chart container hidden, the request under way, nothing listening. *)
Definition loading (rows : list tr) (options : list option_el) : page :=
  {| tableBody := rows; drugFilter := options;
     chartContainer_display := "none";
     click_listeners := []; change_listeners := 0;
     charts := []; console := []; random_calls := 0;
     uncaught := []; fetch_pending := true |}.

(** What happens to the page afterwards. *)
Inductive event : Type :=
| FetchSettled (fetched : settled Response)
| ShowChartsClick
| DrugFilterChange (value : string).

(** Listeners of one event run in turn; an exception of one reaches the
    page and the next one runs. *)
Fixpoint run_listeners (ls : list (M unit)) (st : page) : page :=
  match ls with
  | [] => st
  | l :: rest =>
      match l st with
      | (Normal _, st') => run_listeners rest st'
      | (Throw e, st') => run_listeners rest (with_uncaught (uncaught st' ++ [e]) st')
      end
  end.

Definition dispatch (ev : event) (st : page) : page :=
  match ev with
  | FetchSettled fetched =>
      if fetch_pending st
      then load_sequence fetched (with_fetch_pending false st)
      else st
  | ShowChartsClick => run_listeners (map showCharts (click_listeners st)) st
  | DrugFilterChange value =>
      run_listeners (repeat (filterTable value) (change_listeners st)) st
  end.

Definition run (evs : list event) (st : page) : page :=
  fold_left (fun st ev => dispatch ev st) evs st.

(** ** The stand-alone table script (the unnamed source file) *)







(** ** Reference functions for the properties *)

(** The sum of the first [n] elements of a sequence, added in index order;
    the empty sum is 0.  Addition of doubles is not associative, so the
    order is part of the definition. *)
Fixpoint sum_upto (n : nat) (a : list float) : float :=
  match n with
  | O => 0%float
  | S n' => (sum_upto n' a + nth n' a 0)%float
  end.

(** The sum of all elements of a sequence. *)
Definition seq_sum (a : list float) : float := sum_upto (List.length a) a.

(** The table rows of one drug: one per year, with the amounts of that
    year. *)
Definition series_rows (drug : string) (s : DrugSeries) : list tr :=
  map (fun '(y, (total, avg)) => createRow drug (ToString y) (toFixed2 total) (toFixed2 avg))
      (combine (years s) (combine (total_spending s) (avg_spending s))).

(** The table rows of a response, drug by drug. *)
Definition response_rows (data : DatasetResponse) : list tr :=
  flat_map (fun drug =>
              match JsObject.get drug data with
              | Some s => series_rows drug s
              | None => []
              end)
           (JsObject.keys data).

Definition option_of (drug : string) : option_el :=
  {| option_value := drug; option_textContent := drug |}.

(** A row is shown unless its [style.display] is "none". *)
Definition visible (row : tr) : bool := negb (String.eqb (display row) "none").

(** The text of the first cell of a row. *)
Definition drug_cell (row : tr) : option string := nth_error (cells row) 0.

(** The colour [getRandomColor(opacity)] returns when [n] calls of
    [Math.random] came before. *)
Definition color_at (opacity : float) (n : nat) : string :=
  "rgba(" ++ Number_toString (JsNumber.Math_floor (Math_random n * 255)) ++ ", "
    ++ Number_toString (JsNumber.Math_floor (Math_random (S n) * 255)) ++ ", "
    ++ Number_toString (JsNumber.Math_floor (Math_random (S (S n)) * 255)) ++ ", "
    ++ Number_toString opacity ++ ")".

(** How the row loop of one drug completes, and the rows it has appended
    by then. *)
Fixpoint year_rows (drug : string) (totalSpending avgSpending : list float)
    (ys : list year) (i : nat) : completion unit * list tr :=
  match ys with
  | [] => (Normal tt, [])
  | y :: rest =>
      match nth_error totalSpending i with
      | None => (Throw (undefined_property "toFixed"), [])
      | Some total =>
          match nth_error avgSpending i with
          | None => (Throw (undefined_property "toFixed"), [])
          | Some avg =>
              let (c, rows) := year_rows drug totalSpending avgSpending rest (S i) in
              (c, createRow drug (ToString y) (toFixed2 total) (toFixed2 avg) :: rows)
          end
      end
  end.

(** How the row loops of the drugs [ks] complete, and the rows they have
    appended by then. *)
Fixpoint drug_rows (data : DatasetResponse) (ks : list string) : completion unit * list tr :=
  match ks with
  | [] => (Normal tt, [])
  | k :: rest =>
      match JsObject.get k data with
      | None => (Throw (undefined_property "years"), [])
      | Some s =>
          match year_rows k (total_spending s) (avg_spending s) (years s) 0 with
          | (Throw e, rows) => (Throw e, rows)
          | (Normal _, rows) =>
              let (c, rows') := drug_rows data rest in
              (c, (rows ++ rows')%list)
          end
      end
  end.

(** A series with fewer totals or fewer averages than years. *)
Definition short_series (s : DrugSeries) : Prop :=
  (List.length (total_spending s) < List.length (years s))%nat \/
  (List.length (avg_spending s) < List.length (years s))%nat.

(** The variables after the callback of line 18 ran for [drug] at [index],
    when [n] calls of [Math.random] came before. *)
Definition vars_after (vars : captured) (drug : string) (index : nat) (s : DrugSeries)
    (n : nat) : captured :=
  {| labels := if Nat.eqb index 0 then years s else labels vars;
     datasets :=
       (datasets vars ++
        [{| label := drug; data := total_spending s; borderColor := color_at 1 n;
            backgroundColor := color_at 0.5 (3 + n); fill := false |}])%list;
     totalSpendingData :=
       JsObject.assign drug (reduce PrimFloat.add 0%float (total_spending s))
         (totalSpendingData vars) |}.

(** The three chart configurations of one click. *)
Definition chart_of (vars : captured) (ch : chart) : Prop :=
  ch = LineChart (labels vars) (datasets vars) \/
  ch = BarChart (labels vars) (datasets vars) \/
  exists colors,
    ch = PieChart (JsObject.keys (totalSpendingData vars))
                  (JsObject.values (totalSpendingData vars)) colors.

(** From here on [++] appends lists. *)
Local Open Scope list_scope.

(** The page after the callback of line 18 ran for [drug] and appended
    [rows]. *)
Definition page_after (st : page) (rows : list tr) (drug : string) : page :=
  with_drugFilter (drugFilter st ++ [option_of drug])
    (with_random_calls (6 + random_calls st)
       (with_tableBody (tableBody st ++ rows) st)).

(** Two completions are of one kind, with one error. *)
Definition same_outcome {A B : Type} (c1 : completion A) (c2 : completion B) : Prop :=
  match c1, c2 with
  | Normal _, Normal _ => True
  | Throw e1, Throw e2 => e1 = e2
  | _, _ => False
  end.

(** The loops leave the rest of the page alone. *)
Definition same_elsewhere (st st' : page) : Prop :=
  chartContainer_display st' = chartContainer_display st /\
  click_listeners st' = click_listeners st /\
  change_listeners st' = change_listeners st /\
  charts st' = charts st /\
  console st' = console st /\
  uncaught st' = uncaught st /\
  fetch_pending st' = fetch_pending st.

(** What line 107 makes of a row that has a first cell. *)
Definition filtered (selectedDrug : string) (row : tr) : tr :=
  match drug_cell row with
  | Some drugName =>
      {| cells := cells row;
         display :=
           if String.eqb selectedDrug "all" || String.eqb drugName selectedDrug
           then "" else "none" |}
  | None => row
  end.

(** What makes the fetch fail: the request rejects, or the body is not
    JSON and [response.json()] rejects. *)
Definition failure_of (fetched : settled Response) : option JsError :=
  match fetched with
  | Rejected e => Some e
  | Fulfilled r =>
      match response_body r with
      | NotJson message => Some (SyntaxError message)
      | Json _ => None
      end
  end.

(** [k] colours drawn in a row, when [n] calls of [Math.random] came
    before. *)
Fixpoint colors_from (opacity : float) (n k : nat) : list string :=
  match k with
  | O => []
  | S k' => color_at opacity n :: colors_from opacity (3 + n) k'
  end.

(** The response of an event [FetchSettled] whose transformation
    completed with the variables [c]. *)
Definition loaded_in (rows : list tr) (options : list option_el) (evs : list event)
    (c : captured) : Prop :=
  exists pre post data st',
    evs = pre ++ FetchSettled (Fulfilled {| response_body := Json data |}) :: post /\
    transform data (with_fetch_pending false (run pre (loading rows options))) =
    (Normal c, st').

(** What one run of the click listener does to the page. *)
Definition rendered (c : captured) (st0 st : page) : Prop :=
  chartContainer_display st = "block" /\
  click_listeners st = click_listeners st0 /\
  fetch_pending st = fetch_pending st0 /\
  uncaught st = uncaught st0 /\
  exists added, charts st = charts st0 ++ added /\ Forall (chart_of c) added.

(** A click on the show-charts button came after a load that completed. *)
Definition clicked_after_load (rows : list tr) (options : list option_el)
    (evs : list event) : Prop :=
  exists pre post c,
    evs = pre ++ ShowChartsClick :: post /\ loaded_in rows options pre c.

(** What holds of the page after any events. *)
Definition deferral (rows : list tr) (options : list option_el)
    (evs : list event) (st : page) : Prop :=
  (forall c, In c (click_listeners st) -> loaded_in rows options evs c) /\
  (charts st <> [] \/ chartContainer_display st <> "none" ->
   clicked_after_load rows options evs) /\
  (forall ch, In ch (charts st) -> exists c, In c (click_listeners st) /\ chart_of c ch).

(** ** Further reference functions *)

(** A drug name other than the accessor "__proto__". *)
Definition stored_key (k : string) : bool := negb (String.eqb k "__proto__").

(** The total spending of a drug of the response (nothing for a name the
    response does not have). *)
Definition totals_of (json : DatasetResponse) (drug : string) : list float :=
  match JsObject.get drug json with
  | Some s => total_spending s
  | None => []
  end.

(** What a chart shows of a dataset: its label, its data and its fill. *)
Definition dataset_view (d : dataset) : string * list float * bool :=
  (label d, data d, fill d).

(** An event of the user, as opposed to the settling of the request. *)
Definition user_event (ev : event) : Prop :=
  match ev with
  | FetchSettled _ => False
  | ShowChartsClick | DrugFilterChange _ => True
  end.

(** The three charts of one click. *)
Definition three_charts (c : captured) (colors : list string) : list chart :=
  [LineChart (labels c) (datasets c);
   BarChart (labels c) (datasets c);
   PieChart (JsObject.keys (totalSpendingData c))
            (JsObject.values (totalSpendingData c)) colors].

(** Array-index keys with their numbers, in ascending order of the
    numbers. *)
Definition ascending (l : list (N * string)) : Prop :=
  StronglySorted (fun a b => (fst a <= fst b)%N) l.

(** Every pair is an array-index key with its number. *)
Definition indexed (l : list (N * string)) : Prop :=
  Forall (fun p => JsObject.array_index (snd p) = Some (fst p)) l.

(** Two charts are drawn on the same canvas. *)
Definition same_canvas (a b : chart) : bool :=
  match a, b with
  | LineChart _ _, LineChart _ _ => true
  | BarChart _ _, BarChart _ _ => true
  | PieChart _ _ _, PieChart _ _ _ => true
  | _, _ => false
  end.

(** A charting library that refuses a second chart on a canvas. *)
Definition one_chart_per_canvas (l : list chart) (ch : chart) : option JsError :=
  if existsb (same_canvas ch) l
  then Some (LibraryError "Canvas is already in use.")
  else None.

(** Drugs named b, 10 and 2, in this order, with one year each. *)
Definition numbered_drugs : DatasetResponse :=
  [("b",
    {| years := [YearNumber 2020]; total_spending := [1%float]; avg_spending := [1%float] |});
   ("10",
    {| years := [YearNumber 2020]; total_spending := [2%float]; avg_spending := [2%float] |});
   ("2",
    {| years := [YearNumber 2020]; total_spending := [3%float]; avg_spending := [3%float] |})].

(** The drug "__proto__" and the drug DrugA. *)
Definition proto_and_drug : DatasetResponse :=
  [("__proto__",
    {| years := [YearNumber 2020]; total_spending := [30%float]; avg_spending := [30%float] |});
   ("DrugA",
    {| years := [YearNumber 2020; YearNumber 2021];
       total_spending := [10%float; 20%float];
       avg_spending := [5%float; 10%float] |})].

(** A string of decimal digits. *)
Fixpoint digits_only (s : string) : bool :=
  match s with
  | EmptyString => true
  | String c rest => JsObject.is_digit c && digits_only rest
  end.

(** The digits the implementation prints hold no markup. *)
Definition plain_digits : Prop :=
  forall x, Html.plain (shortest_decimal x) = true.

(** A year label without markup; a number is printed in digits. *)
Definition plain_label (y : year) : Prop :=
  match y with
  | YearNumber _ => True
  | YearString s => Html.plain s = true
  end.

(** The name and the year labels of a drug hold no markup. *)
Definition plain_series (drug : string) (s : DrugSeries) : Prop :=
  Html.plain drug = true /\ Forall plain_label (years s).

(** A response whose drug names and year labels hold no markup: none of
    them contains a less-than sign, an ampersand, a NUL or a carriage
    return. *)
Definition plain_response (data : DatasetResponse) : Prop :=
  Forall (fun d => plain_series (fst d) (snd d)) data.


(** The cell texts of the rows of one drug, as the template spells them:
    the name, the year, and the two amounts after a dollar sign. *)
Definition series_cells (drug : string) (s : DrugSeries) : list (list string) :=
  map (fun '(y, (total, avg)) =>
         [drug; ToString y; ("$" ++ toFixed2 total)%string; ("$" ++ toFixed2 avg)%string])
      (combine (years s) (combine (total_spending s) (avg_spending s))).

(** The cell texts of the rows of a response, drug by drug. *)
Definition response_cells (data : DatasetResponse) : list (list string) :=
  flat_map (fun drug =>
              match JsObject.get drug data with
              | Some s => series_cells drug s
              | None => []
              end)
           (JsObject.keys data).

(** The table rows of a drug of the response. *)
Definition rows_of_drug (data : DatasetResponse) (drug : string) : list tr :=
  match JsObject.get drug data with
  | Some s => series_rows drug s
  | None => []
  end.

(** ** Example responses *)

(** For the examples: a digit printer that knows the two opacities of the
    colours (the other numbers printed are integers), a constant
    [Math.random], a charting library that accepts every chart. *)
Definition opacity_digits : float -> string :=
  fun x =>
    if PrimFloat.eqb x 0.5 then "0.5"
    else if PrimFloat.eqb x 0x1.6666666666666p-1 then "0.7"
    else "".
Definition always_half : nat -> float := fun _ => 0.5%float.
Definition accepts_all : list chart -> chart -> option JsError := fun _ _ => None.

(** For the examples: a parser that finds no cell in the strings
    [Html.fragment_cells] leaves to the browser.  The examples assign no such
    string. *)
Definition no_cells : Html.parser := {| Html.cells_of := fun _ => [] |}.

(** Two drugs with two and three years. *)
Definition two_drugs : DatasetResponse :=
  [("DrugA",
    {| years := [YearNumber 2020; YearNumber 2021];
       total_spending := [10%float; 20%float];
       avg_spending := [5%float; 10%float] |});
   ("DrugB",
    {| years := [YearNumber 2020; YearNumber 2021; YearNumber 2022];
       total_spending := [1%float; 2%float; 3%float];
       avg_spending := [4%float; 5%float; 6%float] |})].

(** One drug with two years and a single total. *)
Definition one_total_missing : DatasetResponse :=
  [("DrugA",
    {| years := [YearNumber 2020; YearNumber 2021];
       total_spending := [10%float];
       avg_spending := [5%float; 10%float] |})].

(** A drug that is named as the accessor of an object's prototype. *)
Definition drug_named_proto : DatasetResponse :=
  [("__proto__",
    {| years := [YearNumber 2020]; total_spending := [30%float];
       avg_spending := [30%float] |})].


(** Three drugs; the second has three years and a single total. *)
Definition second_drug_short : DatasetResponse :=
  [("DrugA",
    {| years := [YearNumber 2020; YearNumber 2021];
       total_spending := [10%float; 20%float];
       avg_spending := [5%float; 10%float] |});
   ("DrugB",
    {| years := [YearNumber 2020; YearNumber 2021; YearNumber 2022];
       total_spending := [1%float];
       avg_spending := [4%float; 5%float; 6%float] |});
   ("DrugC",
    {| years := [YearNumber 2020]; total_spending := [7%float];
       avg_spending := [8%float] |})].

(** A drug that is named as the filter's sentinel, and another one. *)
Definition drug_named_all : DatasetResponse :=
  [("all",
    {| years := [YearNumber 2020]; total_spending := [1%float]; avg_spending := [1%float] |});
   ("B",
    {| years := [YearNumber 2020]; total_spending := [2%float]; avg_spending := [2%float] |})].

(** ** Properties *)

(** *** Objects *)

Lemma insert_index_perm (x : N * string) (l : list (N * string)) :
  Permutation (JsObject.insert_index x l) (x :: l).
Proof.
  induction l as [|y l IH]; simpl.
  - apply Permutation_refl.
  - destruct (fst x <=? fst y)%N.
    + apply Permutation_refl.
    + eapply perm_trans; [apply perm_skip, IH | apply perm_swap].
Qed.

Lemma sort_index_perm (l : list (N * string)) :
  Permutation (JsObject.sort_index l) l.
Proof.
  induction l as [|x l IH]; simpl.
  - apply perm_nil.
  - eapply perm_trans; [apply insert_index_perm | apply perm_skip, IH].
Qed.

Lemma index_string_perm (ks : list string) :
  Permutation (map snd (JsObject.index_keys ks) ++ JsObject.string_keys ks) ks.
Proof.
  induction ks as [|k ks IH]; simpl.
  - apply perm_nil.
  - destruct (JsObject.array_index k); simpl.
    + apply perm_skip, IH.
    + eapply perm_trans; [apply Permutation_sym, Permutation_middle | apply perm_skip, IH].
Qed.

Lemma keys_perm {V : Type} (o : JsObject.t V) :
  Permutation (JsObject.keys o) (map fst o).
Proof.
  unfold JsObject.keys.
  eapply perm_trans; [|apply index_string_perm].
  apply Permutation_app_tail, Permutation_map, sort_index_perm.
Qed.

Lemma keys_In {V : Type} (o : JsObject.t V) (k : string) :
  In k (JsObject.keys o) <-> In k (map fst o).
Proof.
  split; apply Permutation_in; [|apply Permutation_sym]; apply keys_perm.
Qed.

Lemma keys_NoDup {V : Type} (o : JsObject.t V) :
  JsObject.wf o -> NoDup (JsObject.keys o).
Proof.
  intros H. eapply Permutation_NoDup; [apply Permutation_sym, keys_perm | exact H].
Qed.

Lemma get_Some_In {V : Type} (o : JsObject.t V) (k : string) (v : V) :
  JsObject.get k o = Some v -> In (k, v) o.
Proof.
  induction o as [|[k' v'] o IH]; simpl; [discriminate|].
  destruct (String.eqb_spec k k') as [->|].
  - intros [= ->]. now left.
  - intros H. right. now apply IH.
Qed.

Lemma get_key {V : Type} (o : JsObject.t V) (k : string) :
  In k (map fst o) <-> exists v, JsObject.get k o = Some v.
Proof.
  split.
  - induction o as [|[k' v'] o IH]; simpl; [tauto|].
    destruct (String.eqb_spec k k') as [->|Hne].
    + intros _. now exists v'.
    + intros [H|H]; [congruence | now apply IH].
  - intros [v H]. apply get_Some_In in H.
    change k with (fst (k, v)). now apply in_map.
Qed.

Lemma In_get {V : Type} (o : JsObject.t V) (k : string) (v : V) :
  JsObject.wf o -> In (k, v) o -> JsObject.get k o = Some v.
Proof.
  unfold JsObject.wf.
  induction o as [|[k' v'] o IH]; simpl; [tauto|].
  intros Hnd [H|H].
  - injection H as -> ->. now rewrite String.eqb_refl.
  - inversion Hnd as [|? ? Hnotin Hnd']; subst.
    destruct (String.eqb_spec k k') as [->|Hne].
    + exfalso. apply Hnotin. change k' with (fst (k', v)). now apply in_map.
    + now apply IH.
Qed.

Lemma get_set_same {V : Type} (o : JsObject.t V) (k : string) (v : V) :
  JsObject.get k (JsObject.set k v o) = Some v.
Proof.
  induction o as [|[k' v'] o IH]; simpl.
  - now rewrite String.eqb_refl.
  - destruct (String.eqb_spec k k') as [->|Hne]; simpl.
    + now rewrite String.eqb_refl.
    + destruct (String.eqb_spec k k'); [contradiction | exact IH].
Qed.

Lemma get_set_other {V : Type} (o : JsObject.t V) (k k' : string) (v : V) :
  k' <> k -> JsObject.get k' (JsObject.set k v o) = JsObject.get k' o.
Proof.
  intros Hne.
  induction o as [|[k1 v1] o IH]; simpl.
  - destruct (String.eqb_spec k' k); [contradiction | reflexivity].
  - destruct (String.eqb_spec k k1) as [->|Hne1]; simpl.
    + destruct (String.eqb_spec k' k1); [contradiction | reflexivity].
    + destruct (String.eqb_spec k' k1); [reflexivity | exact IH].
Qed.

Lemma get_assign_same {V : Type} (o : JsObject.t V) (k : string) (v : V) :
  k <> "__proto__" -> JsObject.get k (JsObject.assign k v o) = Some v.
Proof.
  intros Hk. unfold JsObject.assign.
  destruct (String.eqb_spec k "__proto__"); [contradiction | apply get_set_same].
Qed.

Lemma get_assign_other {V : Type} (o : JsObject.t V) (k k' : string) (v : V) :
  k' <> k -> JsObject.get k' (JsObject.assign k v o) = JsObject.get k' o.
Proof.
  intros Hne. unfold JsObject.assign.
  destruct (String.eqb k "__proto__"); [reflexivity | now apply get_set_other].
Qed.

(** *** The row loops *)

Lemma with_tableBody_same (st : page) : with_tableBody (tableBody st) st = st.
Proof. now destruct st. Qed.

Lemma per_year_loop (drug : string) (ts av : list float) (ys : list year) :
  forall (i : nat) (st : page),
    forEach (per_year drug ts av) ys i st =
    (fst (year_rows drug ts av ys i),
     with_tableBody (tableBody st ++ snd (year_rows drug ts av ys i)) st).
Proof.
  induction ys as [|y ys IH]; intros i st; simpl.
  - unfold ret. now rewrite app_nil_r, with_tableBody_same.
  - unfold bind at 1. unfold per_year, bind, defined.
    destruct (nth_error ts i) as [total|]; simpl;
      [|now rewrite app_nil_r, with_tableBody_same].
    destruct (nth_error av i) as [avg|]; simpl;
      [|now rewrite app_nil_r, with_tableBody_same].
    rewrite IH.
    destruct (year_rows drug ts av ys (S i)) as [c rows]; simpl.
    now rewrite <- app_assoc.
Qed.

Lemma year_rows_enough (drug : string) (ts av : list float) (ys : list year) :
  forall (pt pa : list float),
    List.length pt = List.length pa ->
    (List.length ys <= List.length ts)%nat ->
    (List.length ys <= List.length av)%nat ->
    year_rows drug (pt ++ ts) (pa ++ av) ys (List.length pt) =
    (Normal tt,
     map (fun '(y, (total, avg)) => createRow drug (ToString y) (toFixed2 total) (toFixed2 avg))
         (combine ys (combine ts av))).
Proof.
  revert ts av.
  induction ys as [|y ys IH]; intros ts av pt pa Hp Ht Ha; simpl; [reflexivity|].
  destruct ts as [|t ts]; [simpl in Ht; lia|].
  destruct av as [|a av]; [simpl in Ha; lia|].
  rewrite nth_error_app2, Nat.sub_diag by lia. simpl.
  rewrite Hp, nth_error_app2, Nat.sub_diag by lia. simpl.
  specialize (IH ts av (pt ++ [t]) (pa ++ [a])).
  rewrite !length_app in IH. simpl in IH, Ht, Ha.
  rewrite <- !app_assoc in IH. simpl in IH.
  replace (S (List.length pa)) with (List.length pt + 1)%nat by lia.
  rewrite IH by lia. reflexivity.
Qed.

Lemma year_rows_valid (drug : string) (s : DrugSeries) :
  (List.length (years s) <= List.length (total_spending s))%nat ->
  (List.length (years s) <= List.length (avg_spending s))%nat ->
  year_rows drug (total_spending s) (avg_spending s) (years s) 0 =
  (Normal tt, series_rows drug s).
Proof.
  intros Ht Ha.
  exact (year_rows_enough drug (total_spending s) (avg_spending s) (years s)
           [] [] eq_refl Ht Ha).
Qed.

Lemma year_rows_TypeError (drug : string) (ts av : list float) (ys : list year) :
  forall (i : nat) (e : JsError),
    fst (year_rows drug ts av ys i) = Throw e -> e = undefined_property "toFixed".
Proof.
  induction ys as [|y ys IH]; intros i e; simpl; [discriminate|].
  destruct (nth_error ts i); [|now intros [= <-]].
  destruct (nth_error av i); [|now intros [= <-]].
  specialize (IH (S i) e).
  destruct (year_rows drug ts av ys (S i)). exact IH.
Qed.

Lemma year_rows_short (drug : string) (ts av : list float) (ys : list year) :
  forall (i : nat),
    (i <= List.length ts)%nat -> (i <= List.length av)%nat ->
    (List.length ts < i + List.length ys \/ List.length av < i + List.length ys)%nat ->
    fst (year_rows drug ts av ys i) = Throw (undefined_property "toFixed").
Proof.
  induction ys as [|y ys IH]; intros i Hi Hi' H; simpl in *; [lia|].
  destruct (nth_error ts i) eqn:Et; [|reflexivity].
  destruct (nth_error av i) eqn:Ea; [|reflexivity].
  assert (i < List.length ts)%nat by (apply nth_error_Some; congruence).
  assert (i < List.length av)%nat by (apply nth_error_Some; congruence).
  specialize (IH (S i)).
  destruct (year_rows drug ts av ys (S i)). apply IH; lia.
Qed.

Lemma per_drug_eq (data : DatasetResponse) (vars : captured) (drug : string)
    (index : nat) (st : page) :
  per_drug data vars drug index st =
  match JsObject.get drug data with
  | None => (Throw (undefined_property "years"), st)
  | Some s =>
      match year_rows drug (total_spending s) (avg_spending s) (years s) 0 with
      | (Throw e, rows) => (Throw e, with_tableBody (tableBody st ++ rows) st)
      | (Normal _, rows) =>
          (Normal (vars_after vars drug index s (random_calls st)),
           page_after st rows drug)
      end
  end.
Proof.
  unfold per_drug, bind at 1, defined.
  destruct (JsObject.get drug data) as [s|]; [|reflexivity].
  unfold ret at 1. unfold bind at 1. rewrite per_year_loop.
  destruct (year_rows drug (total_spending s) (avg_spending s) (years s) 0) as [[[]|e] rows];
    simpl; [|reflexivity].
  destruct st; reflexivity.
Qed.

Lemma same_elsewhere_refl (st : page) : same_elsewhere st st.
Proof. repeat split. Qed.

Lemma same_elsewhere_trans (st1 st2 st3 : page) :
  same_elsewhere st1 st2 -> same_elsewhere st2 st3 -> same_elsewhere st1 st3.
Proof.
  unfold same_elsewhere. intros (?&?&?&?&?&?&?) (?&?&?&?&?&?&?).
  repeat split; congruence.
Qed.

Lemma drug_loop_table (data : DatasetResponse) (ks : list string) :
  forall (vars : captured) (i : nat) (st : page),
    let r := forEach_with (per_drug data) vars ks i st in
    tableBody (snd r) = tableBody st ++ snd (drug_rows data ks) /\
    same_outcome (fst r) (fst (drug_rows data ks)) /\
    same_elsewhere st (snd r).
Proof.
  induction ks as [|k ks IH]; intros vars i st; simpl.
  - rewrite app_nil_r. auto using same_elsewhere_refl.
  - unfold bind. rewrite per_drug_eq.
    destruct (JsObject.get k data) as [s|]; simpl;
      [|rewrite app_nil_r; auto using same_elsewhere_refl].
    destruct (year_rows k (total_spending s) (avg_spending s) (years s) 0) as [[[]|e] rows];
      simpl; [|repeat split].
    specialize (IH (vars_after vars k i s (random_calls st)) (S i) (page_after st rows k)).
    simpl in IH. destruct IH as (Ht & Ho & Hf).
    destruct (drug_rows data ks) as [c rows']; simpl in *.
    rewrite Ht, app_assoc. repeat split; try assumption; apply Hf.
Qed.

Lemma drug_loop_vars (data : DatasetResponse) (ks : list string) :
  forall (vars : captured) (i : nat) (st : page) (c : captured) (st' : page),
    forEach_with (per_drug data) vars ks i st = (Normal c, st') ->
    drugFilter st' = drugFilter st ++ map option_of ks /\
    (forall D s, In D ks -> D <> "__proto__" -> JsObject.get D data = Some s ->
       JsObject.get D (totalSpendingData c) =
       Some (reduce PrimFloat.add 0%float (total_spending s))) /\
    (forall D, ~ In D ks ->
       JsObject.get D (totalSpendingData c) = JsObject.get D (totalSpendingData vars)).
Proof.
  induction ks as [|k ks IH]; intros vars i st c st'; simpl.
  - intros [= <- <-]. rewrite app_nil_r. repeat split; tauto.
  - unfold bind. rewrite per_drug_eq.
    destruct (JsObject.get k data) as [s0|] eqn:Hk; [|discriminate].
    destruct (year_rows k (total_spending s0) (avg_spending s0) (years s0) 0) as [[[]|e] rows];
      [|discriminate].
    intros H. apply IH in H. destruct H as (Hopt & Hin & Hout). simpl in *.
    split; [|split].
    + now rewrite Hopt, <- app_assoc.
    + intros D s HD Hproto Hs.
      destruct (in_dec string_dec D ks) as [Hmem|Hmem]; [now apply Hin|].
      destruct HD as [<-|HD]; [|contradiction].
      rewrite Hout by assumption.
      rewrite get_assign_same by assumption. congruence.
    + intros D HD. rewrite Hout by tauto.
      apply get_assign_other. intros ->. tauto.
Qed.

Lemma drug_rows_enough (data : DatasetResponse) (ks : list string) :
  (forall k, In k ks ->
     exists s, JsObject.get k data = Some s /\
       (List.length (years s) <= List.length (total_spending s))%nat /\
       (List.length (years s) <= List.length (avg_spending s))%nat) ->
  drug_rows data ks =
  (Normal tt,
   flat_map (fun drug =>
               match JsObject.get drug data with
               | Some s => series_rows drug s
               | None => []
               end) ks).
Proof.
  induction ks as [|k ks IH]; intros H; simpl; [reflexivity|].
  destruct (H k (or_introl eq_refl)) as (s & -> & Ht & Ha).
  rewrite year_rows_valid by assumption.
  rewrite IH by (intros k' Hk'; apply H; now right).
  reflexivity.
Qed.

Lemma valid_keys (data : DatasetResponse) :
  Forall series_valid (map snd data) ->
  forall k, In k (JsObject.keys data) ->
    exists s, JsObject.get k data = Some s /\ series_valid s.
Proof.
  intros Hv k Hk.
  apply keys_In, get_key in Hk. destruct Hk as [s Hs].
  exists s. split; [exact Hs|].
  rewrite Forall_forall in Hv. apply Hv.
  apply get_Some_In in Hs. change s with (snd (k, s)). now apply in_map.
Qed.

Lemma drug_rows_valid (data : DatasetResponse) :
  Forall series_valid (map snd data) ->
  drug_rows data (JsObject.keys data) = (Normal tt, response_rows data).
Proof.
  intros Hv. apply drug_rows_enough.
  intros k Hk. destruct (valid_keys data Hv k Hk) as (s & Hs & Ht & Ha).
  exists s. repeat split; [exact Hs | lia | lia].
Qed.

Lemma drug_rows_short (data : DatasetResponse) (ks : list string) :
  (forall k, In k ks -> JsObject.get k data <> None) ->
  (exists k s, In k ks /\ JsObject.get k data = Some s /\ short_series s) ->
  fst (drug_rows data ks) = Throw (undefined_property "toFixed").
Proof.
  induction ks as [|k ks IH]; intros Hdef (k0 & s0 & Hin & Hget & Hshort); simpl;
    [destruct Hin|].
  destruct (JsObject.get k data) as [s|] eqn:Hk;
    [|exfalso; apply (Hdef k); [now left | exact Hk]].
  destruct (year_rows k (total_spending s) (avg_spending s) (years s) 0) as [[[]|e] rows] eqn:Hy.
  - assert (Hrest : fst (drug_rows data ks) = Throw (undefined_property "toFixed")).
    { apply IH; [intros k' Hk'; apply Hdef; now right|].
      exists k0, s0. repeat split; try assumption.
      destruct Hin as [<-|Hin]; [|exact Hin].
      exfalso. assert (s0 = s) as -> by congruence.
      pose proof (year_rows_short k (total_spending s) (avg_spending s) (years s) 0
                    (Nat.le_0_l _) (Nat.le_0_l _) Hshort) as Hthrow.
      rewrite Hy in Hthrow. discriminate. }
    destruct (drug_rows data ks). exact Hrest.
  - simpl. f_equal.
    apply (year_rows_TypeError k (total_spending s) (avg_spending s) (years s) 0).
    now rewrite Hy.
Qed.

(** *** Sums *)

Lemma sum_upto_app (a b : list float) (n : nat) :
  (n <= List.length a)%nat -> sum_upto n (a ++ b) = sum_upto n a.
Proof.
  induction n as [|n IH]; intros Hn; simpl; [reflexivity|].
  rewrite IH by lia. now rewrite app_nth1 by lia.
Qed.

Lemma reduce_seq_sum (a : list float) :
  reduce PrimFloat.add 0%float a = seq_sum a.
Proof.
  unfold reduce, seq_sum.
  induction a as [|x a IH] using rev_ind; [reflexivity|].
  rewrite fold_left_app, length_app, Nat.add_comm. simpl.
  rewrite IH, sum_upto_app by lia.
  now rewrite app_nth2, Nat.sub_diag by lia.
Qed.

(** *** The load transformation on a response whose arrays are long enough *)

Lemma transform_table (data : DatasetResponse) (st : page) :
  fst (drug_rows data (JsObject.keys data)) = Normal tt ->
  exists c st',
    transform data st = (Normal c, st') /\
    tableBody st' = tableBody st ++ snd (drug_rows data (JsObject.keys data)) /\
    same_elsewhere st st'.
Proof.
  intros Hrows. unfold transform.
  destruct (drug_loop_table data (JsObject.keys data) no_variables 0 st)
    as (Ht & Ho & Hf).
  destruct (forEach_with (per_drug data) no_variables (JsObject.keys data) 0 st)
    as [[c|e] st']; simpl in *.
  - now exists c, st'.
  - rewrite Hrows in Ho. destruct Ho.
Qed.

Lemma on_data_eq (data : DatasetResponse) (st : page) :
  on_data data st =
  match transform data st with
  | (Normal c, st') =>
      (Normal tt,
       with_change_listeners (S (change_listeners st'))
         (with_click_listeners (click_listeners st' ++ [c]) st'))
  | (Throw e, st') => (Throw e, st')
  end.
Proof.
  unfold on_data, bind.
  destruct (transform data st) as [[c|e] st']; reflexivity.
Qed.

Lemma series_rows_length (drug : string) (s : DrugSeries) :
  series_valid s -> List.length (series_rows drug s) = List.length (years s).
Proof.
  intros [Ht Ha]. unfold series_rows.
  rewrite length_map, !length_combine. lia.
Qed.

Lemma response_rows_length (data : DatasetResponse) :
  valid_response data ->
  List.length (response_rows data) =
  list_sum (map (fun d => List.length (years (snd d))) data).
Proof.
  intros [Hwf Hv]. unfold response_rows.
  rewrite length_flat_map.
  rewrite (Permutation_map _ (keys_perm data)), map_map.
  f_equal. apply map_ext_in. intros [k s] Hin. simpl.
  rewrite (In_get data k s Hwf Hin).
  apply series_rows_length.
  rewrite Forall_forall in Hv. apply Hv.
  change s with (snd (k, s)). now apply in_map.
Qed.

Lemma on_data_valid (data : DatasetResponse) (st : page) :
  valid_response data ->
  exists st',
    on_data data st = (Normal tt, st') /\
    tableBody st' = tableBody st ++ response_rows data.
Proof.
  intros Hvalid.
  destruct (transform_table data st) as (c & st1 & Htr & Ht & _).
  { now rewrite drug_rows_valid by apply Hvalid. }
  rewrite on_data_eq, Htr. eexists. split; [reflexivity|].
  simpl. now rewrite Ht, drug_rows_valid by apply Hvalid.
Qed.

(** C1.  For every valid response, the continuation of the fetch completes
    and the number of rows it has appended to the table body is the sum,
    over the drugs of the response, of the length of the drug's [years];
    the drugs may differ in that length. *)
Theorem row_count_is_sum_of_years (data : DatasetResponse) (st : page) :
  valid_response data ->
  exists st',
    on_data data st = (Normal tt, st') /\
    List.length (tableBody st') =
    List.length (tableBody st) +
    list_sum (map (fun d => List.length (years (snd d))) data).
Proof.
  intros Hvalid.
  destruct (on_data_valid data st Hvalid) as (st' & Hrun & Ht).
  exists st'. split; [exact Hrun|].
  now rewrite Ht, length_app, response_rows_length.
Qed.

(** The pie aggregate of every drug but one.  For every drug D of a valid
    response that is not named "__proto__", the load transformation
    completes and the pie aggregate it has stored for D is the sum of the
    elements of D's [total_spending], added in index order from 0. *)
Theorem pie_aggregate_is_sum (data : DatasetResponse) (st : page)
    (D : string) (s : DrugSeries) :
  valid_response data ->
  JsObject.get D data = Some s ->
  D <> "__proto__" ->
  exists c st',
    transform data st = (Normal c, st') /\
    JsObject.get D (totalSpendingData c) = Some (seq_sum (total_spending s)).
Proof.
  intros Hvalid HD Hproto.
  destruct (transform_table data st) as (c & st1 & Htr & _).
  { now rewrite drug_rows_valid by apply Hvalid. }
  exists c, st1. split; [exact Htr|].
  destruct (drug_loop_vars data _ _ _ _ _ _ Htr) as (_ & Hin & _).
  rewrite <- reduce_seq_sum. apply Hin; [|exact Hproto|exact HD].
  apply keys_In, get_key. now exists s.
Qed.

Lemma drug_loop_labels (data : DatasetResponse) (ks : list string) :
  forall (vars : captured) (i : nat) (st : page) (c : captured) (st' : page),
    forEach_with (per_drug data) vars ks i st = (Normal c, st') ->
    i <> 0%nat ->
    labels c = labels vars.
Proof.
  induction ks as [|k ks IH]; intros vars i st c st'; simpl.
  - now intros [= <- <-].
  - unfold bind. rewrite per_drug_eq.
    destruct (JsObject.get k data) as [s|]; [|discriminate].
    destruct (year_rows k (total_spending s) (avg_spending s) (years s) 0) as [[[]|e] rows];
      [|discriminate].
    intros H Hi. apply IH in H; [|discriminate].
    rewrite H. simpl. destruct (Nat.eqb_spec i 0); [contradiction | reflexivity].
Qed.

(** The label axis.  When the load transformation completes, the labels it
    has captured for the line and bar charts are the years of the first drug
    in the order of [Object.keys], and there are none when the response has
    no drug. *)
Theorem labels_are_first_drug_years (data : DatasetResponse) (st st' : page)
    (c : captured) :
  transform data st = (Normal c, st') ->
  labels c =
  match JsObject.keys data with
  | [] => []
  | k :: _ =>
      match JsObject.get k data with
      | Some s => years s
      | None => []
      end
  end.
Proof.
  unfold transform.
  destruct (JsObject.keys data) as [|k ks]; simpl.
  - now intros [= <- _].
  - unfold bind. rewrite per_drug_eq.
    destruct (JsObject.get k data) as [s|]; [|discriminate].
    destruct (year_rows k (total_spending s) (avg_spending s) (years s) 0) as [[[]|e] rows];
      [|discriminate].
    intros H. apply drug_loop_labels in H; [|discriminate].
    now rewrite H.
Qed.

(** C5.  After a load that completed, the options added to the drug filter
    are, in the order of [Object.keys], one option per drug of the response:
    every drug of the response has an option, every option is a drug of the
    response, and no drug has two.  A valid response makes the load
    complete. *)
Theorem filter_options_are_drug_keys (data : DatasetResponse) (st : page) :
  JsObject.wf data ->
  (forall st',
     on_data data st = (Normal tt, st') ->
     exists added,
       drugFilter st' = drugFilter st ++ added /\
       added = map option_of (JsObject.keys data) /\
       NoDup (map option_value added) /\
       (forall d, In d (map option_value added) <->
                  exists s, JsObject.get d data = Some s)) /\
  (valid_response data -> exists st', on_data data st = (Normal tt, st')).
Proof.
  intros Hwf. split.
  - intros st'. rewrite on_data_eq.
    destruct (transform data st) as [[c|e] st1] eqn:Htr; [|discriminate].
    intros [= <-].
    destruct (drug_loop_vars data _ _ _ _ _ _ Htr) as (Hopt & _).
    exists (map option_of (JsObject.keys data)). simpl.
    assert (Hvalues : map option_value (map option_of (JsObject.keys data)) =
                      JsObject.keys data).
    { rewrite map_map. simpl. apply map_id. }
    rewrite Hvalues.
    repeat split; try assumption.
    + now apply keys_NoDup.
    + intros H. now apply get_key, keys_In.
    + intros H. now apply keys_In, get_key.
  - intros Hvalid.
    destruct (on_data_valid data st Hvalid) as (st' & H & _).
    now exists st'.
Qed.

(** *** The table filter *)

Lemma filter_rows_populated (selectedDrug : string) (rows : list tr) :
  Forall (fun row => drug_cell row <> None) rows ->
  filter_rows selectedDrug rows = (Normal tt, map (filtered selectedDrug) rows).
Proof.
  induction 1 as [|row rows Hrow _ IH]; cbn [filter_rows map]; [reflexivity|].
  unfold filtered, drug_cell in *.
  destruct (nth_error (cells row) 0); [|contradiction].
  now rewrite IH.
Qed.

Lemma filter_rows_twice (selectedDrug : string) (rows : list tr) :
  filter_rows selectedDrug (snd (filter_rows selectedDrug rows)) =
  filter_rows selectedDrug rows.
Proof.
  induction rows as [|row rows IH]; cbn [filter_rows]; [reflexivity|].
  destruct (nth_error (cells row) 0) as [drugName|] eqn:Hcell.
  - destruct (filter_rows selectedDrug rows) as [c rows'] eqn:Hrows.
    cbn [snd filter_rows cells] in *. now rewrite Hcell, IH.
  - cbn [snd filter_rows]. now rewrite Hcell.
Qed.

(** C6, amended.  On a table whose rows all have a drug cell, [filterTable]
    completes, keeps the rows and their cells, and: with "all" it makes every
    row visible; with a drug name D other than "all" it makes visible exactly
    the rows whose drug cell is D. *)
Theorem filterTable_shows_selected (D : string) (st : page) :
  Forall (fun row => drug_cell row <> None) (tableBody st) ->
  (fst (filterTable "all" st) = Normal tt /\
   Forall2 (fun row row' => cells row' = cells row /\ visible row' = true)
     (tableBody st) (tableBody (snd (filterTable "all" st)))) /\
  (D <> "all" ->
   fst (filterTable D st) = Normal tt /\
   Forall2 (fun row row' =>
              cells row' = cells row /\
              (visible row' = true <-> drug_cell row = Some D))
     (tableBody st) (tableBody (snd (filterTable D st)))).
Proof.
  intros Hpop. unfold filterTable.
  rewrite !filter_rows_populated by assumption. simpl.
  split; [split; [reflexivity|] | intros HD; split; [reflexivity|]].
  - induction Hpop as [|row rows Hrow _ IH]; simpl; constructor; [|exact IH].
    unfold filtered. destruct (drug_cell row); [|contradiction]. now split.
  - induction Hpop as [|row rows Hrow _ IH]; simpl; constructor; [|exact IH].
    unfold filtered. destruct (drug_cell row) as [d|]; [|contradiction].
    split; [reflexivity|]. unfold visible. simpl.
    destruct (String.eqb_spec D "all"); [contradiction|]. simpl.
    destruct (String.eqb_spec d D) as [->|Hne]; simpl.
    + split; reflexivity.
    + split; [discriminate | intros [= ->]; contradiction].
Qed.

(** C9.  [filterTable] is idempotent: run a second time with the same
    selection it completes as the first time and leaves the page, and so
    every row's visibility, as the first run left it. *)
Theorem filterTable_idempotent (selectedDrug : string) (st : page) :
  filterTable selectedDrug (snd (filterTable selectedDrug st)) =
  filterTable selectedDrug st.
Proof.
  unfold filterTable.
  pose proof (filter_rows_twice selectedDrug (tableBody st)) as H.
  destruct (filter_rows selectedDrug (tableBody st)) as [c rows]; simpl in *.
  rewrite H. reflexivity.
Qed.

(** *** The promise chain *)

Lemma load_sequence_failure (fetched : settled Response) (e : JsError) (st : page) :
  failure_of fetched = Some e ->
  load_sequence fetched st =
  with_console (console st ++ [("Error fetching data:", e)]) st.
Proof.
  destruct fetched as [[[message|data]]|e']; simpl; intros [= <-]; reflexivity.
Qed.

Lemma nothing_listening (evs : list event) :
  forall st,
    click_listeners st = [] -> change_listeners st = 0%nat -> fetch_pending st = false ->
    run evs st = st.
Proof.
  induction evs as [|ev evs IH]; intros st Hclick Hchange Hpending; [reflexivity|].
  assert (Hstep : dispatch ev st = st).
  { destruct ev as [fetched| |value]; cbn [dispatch].
    - now rewrite Hpending.
    - now rewrite Hclick.
    - now rewrite Hchange. }
  unfold run in *. cbn [fold_left]. rewrite Hstep. now apply IH.
Qed.

(** C2.  When the fetch fails (the request rejects, or the body is not
    JSON), the load sequence logs the error with [console.error] and changes
    nothing else.  On the page as the script found it: no row and no option
    is added, no error reaches the page, and whatever the user does
    afterwards leaves the page as it is. *)
Theorem fetch_failure_is_logged (rows : list tr) (options : list option_el)
    (fetched : settled Response) (e : JsError) (evs : list event) :
  failure_of fetched = Some e ->
  (forall st0,
     load_sequence fetched st0 =
     with_console (console st0 ++ [("Error fetching data:", e)]) st0) /\
  let st := dispatch (FetchSettled fetched) (loading rows options) in
  tableBody st = rows /\
  drugFilter st = options /\
  console st = [("Error fetching data:", e)] /\
  uncaught st = [] /\
  run evs st = st.
Proof.
  intros Hfail. split; [intros st0; now apply load_sequence_failure|].
  cbn [dispatch loading fetch_pending]. cbv zeta.
  rewrite (load_sequence_failure fetched e _ Hfail).
  repeat split. now apply nothing_listening.
Qed.

Lemma load_sequence_eq (data : DatasetResponse) (st : page) :
  load_sequence (Fulfilled {| response_body := Json data |}) st =
  match on_data data st with
  | (Normal _, st') => st'
  | (Throw e, st') => with_console (console st' ++ [("Error fetching data:", e)]) st'
  end.
Proof.
  unfold load_sequence, then_promise, then_, catch_, ret, response_json, console_error.
  simpl. destruct (on_data data st) as [[[]|e] st']; reflexivity.
Qed.

Lemma on_data_short (data : DatasetResponse) (st : page) :
  (exists k s, JsObject.get k data = Some s /\ short_series s) ->
  fst (on_data data st) = Throw (undefined_property "toFixed") /\
  same_elsewhere st (snd (on_data data st)).
Proof.
  intros (k & s & Hk & Hshort).
  rewrite on_data_eq. unfold transform.
  destruct (drug_loop_table data (JsObject.keys data) no_variables 0 st)
    as (_ & Ho & Hf).
  rewrite drug_rows_short in Ho.
  - destruct (forEach_with (per_drug data) no_variables (JsObject.keys data) 0 st)
      as [[c|e] st']; simpl in *; [destruct Ho | now subst].
  - intros k' Hk'. apply keys_In, get_key in Hk'. destruct Hk' as [v ->]. discriminate.
  - exists k, s. repeat split; try assumption.
    apply keys_In, get_key. now exists s.
Qed.

(** C3, amended.  When some drug of the response has fewer totals or fewer
    averages than years, the load transformation throws a TypeError; the
    handler of the load sequence catches it and logs it, so that no error
    reaches the page; no listener is added. *)
Theorem short_series_error_is_logged (data : DatasetResponse) (st : page) :
  (exists k s, JsObject.get k data = Some s /\ short_series s) ->
  let st' := load_sequence (Fulfilled {| response_body := Json data |}) st in
  fst (on_data data st) = Throw (undefined_property "toFixed") /\
  console st' = console st ++ [("Error fetching data:", undefined_property "toFixed")] /\
  uncaught st' = uncaught st /\
  click_listeners st' = click_listeners st /\
  change_listeners st' = change_listeners st.
Proof.
  intros Hshort.
  destruct (on_data_short data st Hshort) as (Hthrow & Hf).
  cbv zeta. rewrite load_sequence_eq.
  destruct (on_data data st) as [[[]|e] st1]; simpl in *; [discriminate|].
  injection Hthrow as ->.
  destruct Hf as (_ & Hclick & Hchange & _ & Hconsole & Huncaught & _).
  rewrite Hconsole. repeat split; assumption.
Qed.

(** C7.  The response with the one drug DrugA, years 2020 and 2021, totals
    10 and 20, averages 5 and 10: on a page with an empty table and an empty
    filter the load leaves the two rows (DrugA, 2020, $10.00, $5.00) and
    (DrugA, 2021, $20.00, $10.00) in that order, the one option DrugA, and
    the pie aggregate DrugA: 30; nothing is logged. *)
Theorem single_drug_scenario :
  let data : DatasetResponse :=
    [("DrugA",
      {| years := [YearNumber 2020; YearNumber 2021];
         total_spending := [10%float; 20%float];
         avg_spending := [5%float; 10%float] |})] in
  let st := dispatch (FetchSettled (Fulfilled {| response_body := Json data |}))
              (loading [] []) in
  tableBody st =
    [{| cells := ["DrugA"; "2020"; "$10.00"; "$5.00"]; display := "" |};
     {| cells := ["DrugA"; "2021"; "$20.00"; "$10.00"]; display := "" |}] /\
  drugFilter st = [{| option_value := "DrugA"; option_textContent := "DrugA" |}] /\
  map totalSpendingData (click_listeners st) = [[("DrugA", 30%float)]] /\
  console st = [] /\
  uncaught st = [].
Proof.
  vm_compute. repeat split.
Qed.

(** *** Charts *)

Lemma colors_loop {A : Type} (opacity : float) (l : list A) :
  forall st,
    map_M (fun _ => getRandomColor opacity) l st =
    (Normal (colors_from opacity (random_calls st) (List.length l)),
     with_random_calls (3 * List.length l + random_calls st) st).
Proof.
  induction l as [|x l IH]; intros st.
  - simpl. unfold ret. now destruct st.
  - cbn [map_M]. unfold bind at 1.
    change (getRandomColor opacity st) with
      (Normal (color_at opacity (random_calls st)),
       with_random_calls (3 + random_calls st) st).
    cbv iota beta. unfold bind at 1. rewrite IH. unfold ret.
    cbn [List.length colors_from]. f_equal.
    destruct st; unfold with_random_calls; cbn [random_calls]. f_equal. lia.
Qed.

Lemma chart_of_line (c : captured) : chart_of c (LineChart (labels c) (datasets c)).
Proof. now left. Qed.

Lemma chart_of_bar (c : captured) : chart_of c (BarChart (labels c) (datasets c)).
Proof. right. now left. Qed.

Lemma chart_of_pie (c : captured) (colors : list string) :
  chart_of c (PieChart (JsObject.keys (totalSpendingData c))
                (JsObject.values (totalSpendingData c)) colors).
Proof. right. right. now exists colors. Qed.

Lemma showCharts_rendered (c : captured) (st0 : page) :
  rendered c st0 (snd (showCharts c st0)).
Proof.
  remember (showCharts c st0) as r eqn:Hr. revert Hr.
  unfold rendered, showCharts, renderLineChart, renderBarChart, renderPieChart.
  unfold bind at 1. cbv iota beta.
  set (st1 := with_chartContainer_display "block" st0).
  set (line := LineChart (labels c) (datasets c)).
  set (bar := BarChart (labels c) (datasets c)).
  unfold bind at 1. unfold new_Chart at 1.
  destruct (Chart_throws (charts st1) line) as [e|].
  { intros ->. simpl. do 4 (split; [reflexivity|]). exists []. now rewrite app_nil_r. }
  set (st2 := with_charts (charts st1 ++ [line]) st1).
  unfold bind at 1. unfold new_Chart at 1.
  destruct (Chart_throws (charts st2) bar) as [e|].
  { intros ->. simpl. do 4 (split; [reflexivity|]). exists [line]. split; [reflexivity|].
    repeat apply Forall_cons; auto using chart_of_line. }
  set (st3 := with_charts (charts st2 ++ [bar]) st2).
  unfold bind. rewrite colors_loop. unfold new_Chart.
  match goal with |- context [Chart_throws ?l ?ch] => destruct (Chart_throws l ch) as [e|] end.
  { intros ->. simpl. do 4 (split; [reflexivity|]).
    exists [line; bar]. rewrite <- app_assoc. split; [reflexivity|].
    repeat apply Forall_cons; auto using chart_of_line, chart_of_bar. }
  intros ->. simpl. do 4 (split; [reflexivity|]). eexists [line; bar; _].
  rewrite <- !app_assoc. split; [reflexivity|].
  repeat apply Forall_cons; auto using chart_of_line, chart_of_bar, chart_of_pie.
Qed.

Lemma showCharts_all (c : captured) (st0 : page) :
  (forall l ch, Chart_throws l ch = None) ->
  showCharts c st0 =
  (Normal tt,
   with_charts
     (charts st0 ++
      [LineChart (labels c) (datasets c);
       BarChart (labels c) (datasets c);
       PieChart (JsObject.keys (totalSpendingData c))
                (JsObject.values (totalSpendingData c))
                (colors_from 0x1.6666666666666p-1 (random_calls st0)
                   (List.length (JsObject.keys (totalSpendingData c))))])
     (with_random_calls
        (3 * List.length (JsObject.keys (totalSpendingData c)) + random_calls st0)
        (with_chartContainer_display "block" st0))).
Proof.
  intros Hnever.
  unfold showCharts, renderLineChart, renderBarChart, renderPieChart.
  unfold bind at 1. cbv iota beta.
  unfold bind at 1. unfold new_Chart at 1. rewrite Hnever.
  unfold bind at 1. unfold new_Chart at 1. rewrite Hnever.
  unfold bind. rewrite colors_loop. unfold new_Chart. rewrite Hnever.
  destruct st0; simpl. now rewrite <- !app_assoc.
Qed.

(** *** Events *)

Lemma run_snoc (evs : list event) (ev : event) (st : page) :
  run (evs ++ [ev]) st = dispatch ev (run evs st).
Proof. unfold run. now rewrite fold_left_app. Qed.

Lemma loaded_in_more (rows : list tr) (options : list option_el)
    (evs more : list event) (c : captured) :
  loaded_in rows options evs c -> loaded_in rows options (evs ++ more) c.
Proof.
  intros (pre & post & data & st' & -> & H).
  exists pre, (post ++ more), data, st'. split; [|exact H].
  now rewrite <- app_assoc.
Qed.

Lemma load_sequence_effect (fetched : settled Response) (st : page) :
  let st' := load_sequence fetched st in
  charts st' = charts st /\
  chartContainer_display st' = chartContainer_display st /\
  (click_listeners st' = click_listeners st \/
   exists data c st1,
     fetched = Fulfilled {| response_body := Json data |} /\
     transform data st = (Normal c, st1) /\
     click_listeners st' = click_listeners st ++ [c]).
Proof.
  destruct fetched as [[[message|data]]|e]; cbv zeta.
  - repeat split. now left.
  - rewrite load_sequence_eq, on_data_eq.
    pose proof (drug_loop_table data (JsObject.keys data) no_variables 0 st)
      as (_ & _ & Hf).
    fold (transform data) in Hf.
    destruct (transform data st) as [[c|e] st1] eqn:Htr; simpl in *;
      destruct Hf as (Hd & Hcl & _ & Hch & _).
    + repeat split; try assumption. right. exists data, c, st1.
      repeat split; [exact Htr | now rewrite Hcl].
    + repeat split; try assumption. now left.
  - repeat split. now left.
Qed.

Lemma run_showCharts (cs : list captured) :
  forall st,
    let st' := run_listeners (map showCharts cs) st in
    click_listeners st' = click_listeners st /\
    (cs = [] -> st' = st) /\
    (forall ch, In ch (charts st') ->
       In ch (charts st) \/ exists c, In c cs /\ chart_of c ch).
Proof.
  induction cs as [|c cs IH]; intros st; cbv zeta; cbn [map run_listeners].
  - repeat split. now left.
  - pose proof (showCharts_rendered c st) as (_ & Hcl & _ & _ & added & Hch & Hadded).
    assert (Hstep : forall st1,
              click_listeners st1 = click_listeners (snd (showCharts c st)) ->
              charts st1 = charts (snd (showCharts c st)) ->
              let st' := run_listeners (map showCharts cs) st1 in
              click_listeners st' = click_listeners st /\
              (c :: cs = [] -> st' = st) /\
              (forall ch, In ch (charts st') ->
                 In ch (charts st) \/ exists c', In c' (c :: cs) /\ chart_of c' ch)).
    { intros st1 H1 H2. cbv zeta.
      destruct (IH st1) as (Hcl' & _ & Hch').
      split; [congruence|]. split; [discriminate|].
      intros ch Hin. apply Hch' in Hin. destruct Hin as [Hin|(c' & Hc' & Hof)].
      - rewrite H2, Hch in Hin. apply in_app_or in Hin. destruct Hin as [Hin|Hin].
        + now left.
        + right. exists c. split; [now left|].
          rewrite Forall_forall in Hadded. now apply Hadded.
      - right. exists c'. split; [now right | exact Hof]. }
    destruct (showCharts c st) as [[[]|e] st1]; simpl in *; now apply Hstep.
Qed.

Lemma filterTable_elsewhere (value : string) (st : page) :
  click_listeners (snd (filterTable value st)) = click_listeners st /\
  charts (snd (filterTable value st)) = charts st /\
  chartContainer_display (snd (filterTable value st)) = chartContainer_display st.
Proof.
  unfold filterTable.
  destruct (filter_rows value (tableBody st)) as [c rows]. repeat split.
Qed.

Lemma run_filterTable (value : string) (n : nat) :
  forall st,
    let st' := run_listeners (repeat (filterTable value) n) st in
    click_listeners st' = click_listeners st /\
    charts st' = charts st /\
    chartContainer_display st' = chartContainer_display st.
Proof.
  induction n as [|n IH]; intros st; cbv zeta; cbn [repeat run_listeners].
  - repeat split.
  - pose proof (filterTable_elsewhere value st) as (F1 & F2 & F3).
    destruct (filterTable value st) as [[[]|e] st1]; simpl in F1, F2, F3;
      match goal with |- context [run_listeners _ ?s] =>
        destruct (IH s) as (H1 & H2 & H3) end;
      rewrite H1, H2, H3; simpl; auto.
Qed.

Lemma clicked_after_load_more (rows : list tr) (options : list option_el)
    (evs more : list event) :
  clicked_after_load rows options evs -> clicked_after_load rows options (evs ++ more).
Proof.
  intros (pre & post & c & -> & H).
  exists pre, (post ++ more), c. split; [|exact H].
  now rewrite <- app_assoc.
Qed.

Lemma deferral_holds (rows : list tr) (options : list option_el) (evs : list event) :
  deferral rows options evs (run evs (loading rows options)).
Proof.
  induction evs as [|ev evs IH] using rev_ind.
  - repeat split; simpl; tauto.
  - rewrite run_snoc.
    set (st := run evs (loading rows options)) in *.
    destruct IH as (Hcap & Hclick & Hcharts).
    destruct ev as [fetched| |value]; cbn [dispatch].
    + destruct (fetch_pending st) eqn:Hpending.
      * pose proof (load_sequence_effect fetched (with_fetch_pending false st))
          as (Hch & Hd & Hcl).
        cbn [charts chartContainer_display click_listeners with_fetch_pending] in Hch, Hd, Hcl.
        unfold deferral. rewrite Hch, Hd. repeat split.
        -- intros c Hc.
           destruct Hcl as [Hcl|(data & c' & st1 & -> & Htr & Hcl)];
             rewrite Hcl in Hc.
           ++ now apply loaded_in_more, Hcap.
           ++ apply in_app_or in Hc. destruct Hc as [Hc|[<-|[]]].
              ** now apply loaded_in_more, Hcap.
              ** exists evs, [], data, st1. split; [reflexivity | exact Htr].
        -- intros H. now apply clicked_after_load_more, Hclick.
        -- intros ch Hin. destruct (Hcharts ch Hin) as (c & Hc & Hof).
           exists c. split; [|exact Hof].
           destruct Hcl as [Hcl|(data & c' & st1 & _ & _ & Hcl)]; rewrite Hcl;
             [exact Hc | apply in_or_app; now left].
      * repeat split.
        -- intros c Hc. now apply loaded_in_more, Hcap.
        -- intros H. now apply clicked_after_load_more, Hclick.
        -- exact Hcharts.
    + pose proof (run_showCharts (click_listeners st) st) as (Hcl & Hnil & Hch).
      unfold deferral. rewrite Hcl. repeat split.
      * intros c Hc. now apply loaded_in_more, Hcap.
      * intros H. destruct (click_listeners st) as [|c cs] eqn:Hcs.
        -- rewrite (Hnil eq_refl) in H. now apply clicked_after_load_more, Hclick.
        -- exists evs, [], c. split; [reflexivity|]. apply Hcap. now left.
      * intros ch Hin. apply Hch in Hin. destruct Hin as [Hin|Hin]; [now apply Hcharts | exact Hin].
    + pose proof (run_filterTable value (change_listeners st) st) as (Hcl & Hch & Hd).
      unfold deferral. rewrite Hcl, Hch, Hd. repeat split.
      * intros c Hc. now apply loaded_in_more, Hcap.
      * intros H. now apply clicked_after_load_more, Hclick.
      * exact Hcharts.
Qed.

(** C8.  The load renders no chart and leaves the chart container as it
    was, hidden on a fresh page.  After any events: if a chart has been
    constructed or the container is no longer hidden, then a click on the
    show-charts button came after a load that completed; every chart
    constructed is the line, bar or pie chart of the labels, datasets and
    pie aggregate that such a load captured; and the click listener shows
    the container and, when the library accepts the charts, constructs
    these three. *)
Theorem charts_deferred_until_click (rows : list tr) (options : list option_el)
    (evs : list event) :
  let st := run evs (loading rows options) in
  (forall fetched st0,
     charts (load_sequence fetched st0) = charts st0 /\
     chartContainer_display (load_sequence fetched st0) = chartContainer_display st0) /\
  (forall fetched,
     charts (dispatch (FetchSettled fetched) (loading rows options)) = [] /\
     chartContainer_display (dispatch (FetchSettled fetched) (loading rows options)) = "none") /\
  (charts st <> [] \/ chartContainer_display st <> "none" ->
   clicked_after_load rows options evs) /\
  (forall ch, In ch (charts st) ->
     exists c, loaded_in rows options evs c /\ chart_of c ch) /\
  (forall c st0,
     chartContainer_display (snd (showCharts c st0)) = "block" /\
     ((forall l ch, Chart_throws l ch = None) ->
      exists colors,
        charts (snd (showCharts c st0)) =
        charts st0 ++
        [LineChart (labels c) (datasets c);
         BarChart (labels c) (datasets c);
         PieChart (JsObject.keys (totalSpendingData c))
                  (JsObject.values (totalSpendingData c)) colors])).
Proof.
  cbv zeta.
  destruct (deferral_holds rows options evs) as (Hcap & Hclick & Hcharts).
  split; [|split; [|split; [|split]]].
  - intros fetched st0.
    destruct (load_sequence_effect fetched st0) as (H1 & H2 & _). now split.
  - intros fetched. cbn [dispatch loading fetch_pending].
    destruct (load_sequence_effect fetched (with_fetch_pending false (loading rows options)))
      as (H1 & H2 & _).
    now rewrite H1, H2.
  - exact Hclick.
  - intros ch Hin. destruct (Hcharts ch Hin) as (c & Hc & Hof).
    exists c. split; [now apply Hcap | exact Hof].
  - intros c st0. split.
    + apply showCharts_rendered.
    + intros Hnever. rewrite showCharts_all by assumption.
      eexists. reflexivity.
Qed.

(** *** When the load completes *)

Lemma not_short_enough (s : DrugSeries) :
  ~ short_series s ->
  (List.length (years s) <= List.length (total_spending s))%nat /\
  (List.length (years s) <= List.length (avg_spending s))%nat.
Proof. unfold short_series. lia. Qed.


Lemma year_rows_rows (drug : string) (ys : list year) :
  forall (ts av pt pa : list float),
    List.length pt = List.length pa ->
    snd (year_rows drug (pt ++ ts) (pa ++ av) ys (List.length pt)) =
    map (fun '(y, (total, avg)) => createRow drug (ToString y) (toFixed2 total) (toFixed2 avg))
        (combine ys (combine ts av)).
Proof.
  induction ys as [|y ys IH]; intros ts av pt pa Hp; cbn [year_rows]; [reflexivity|].
  destruct ts as [|t ts].
  { rewrite app_nil_r. rewrite (proj2 (nth_error_None pt (List.length pt))) by lia.
    reflexivity. }
  rewrite nth_error_app2, Nat.sub_diag by lia. cbn [nth_error].
  destruct av as [|a av].
  { rewrite app_nil_r. rewrite (proj2 (nth_error_None pa (List.length pt))) by lia.
    reflexivity. }
  rewrite Hp, nth_error_app2, Nat.sub_diag by lia. cbn [nth_error].
  specialize (IH ts av (pt ++ [t]) (pa ++ [a])).
  rewrite !length_app in IH. cbn [List.length] in IH.
  rewrite <- !app_assoc in IH. cbn [app] in IH.
  replace (S (List.length pa)) with (List.length pt + 1)%nat by lia.
  destruct (year_rows drug (pt ++ t :: ts) (pa ++ a :: av) ys (List.length pt + 1))
    as [c rows].
  cbn [snd] in *. rewrite IH by lia. reflexivity.
Qed.

Lemma year_rows_series (drug : string) (s : DrugSeries) :
  snd (year_rows drug (total_spending s) (avg_spending s) (years s) 0) = series_rows drug s.
Proof.
  exact (year_rows_rows drug (years s) (total_spending s) (avg_spending s) [] [] eq_refl).
Qed.

(** *** The promise chains, whatever the fetch brings *)

Lemma on_data_effect (data : DatasetResponse) (st : page) :
  same_outcome (fst (on_data data st)) (fst (drug_rows data (JsObject.keys data))) /\
  tableBody (snd (on_data data st)) =
    tableBody st ++ snd (drug_rows data (JsObject.keys data)) /\
  console (snd (on_data data st)) = console st /\
  uncaught (snd (on_data data st)) = uncaught st /\
  fetch_pending (snd (on_data data st)) = fetch_pending st /\
  match fst (on_data data st) with
  | Normal _ =>
      (exists c st1,
         transform data st = (Normal c, st1) /\
         click_listeners (snd (on_data data st)) = click_listeners st ++ [c]) /\
      change_listeners (snd (on_data data st)) = S (change_listeners st)
  | Throw _ =>
      click_listeners (snd (on_data data st)) = click_listeners st /\
      change_listeners (snd (on_data data st)) = change_listeners st
  end.
Proof.
  rewrite on_data_eq.
  pose proof (drug_loop_table data (JsObject.keys data) no_variables 0 st) as (Ht & Ho & Hf).
  fold (transform data) in Ht, Ho, Hf.
  destruct (transform data st) as [[c|e] st1] eqn:Htr; cbn [fst snd] in *;
    destruct Hf as (_ & Hcl & Hchg & _ & Hcon & Hunc & Hpen).
  - split; [|split; [|split; [|split; [|split; [|split]]]]]; try assumption.
    + exists c, st1. split; [reflexivity|]. simpl. now rewrite Hcl.
    + simpl. now rewrite Hchg.
  - repeat split; assumption.
Qed.

Lemma load_sequence_cases (fetched : settled Response) (st : page) :
  let st' := load_sequence fetched st in
  uncaught st' = uncaught st /\
  fetch_pending st' = fetch_pending st /\
  ((exists data c st1,
      fetched = Fulfilled {| response_body := Json data |} /\
      transform data st = (Normal c, st1) /\
      console st' = console st /\
      click_listeners st' = click_listeners st ++ [c] /\
      change_listeners st' = S (change_listeners st)) \/
   (exists e,
      console st' = console st ++ [("Error fetching data:", e)] /\
      click_listeners st' = click_listeners st /\
      change_listeners st' = change_listeners st)).
Proof.
  cbv zeta.
  destruct (failure_of fetched) as [e|] eqn:Hfail.
  - rewrite (load_sequence_failure fetched e st Hfail).
    split; [reflexivity|]. split; [reflexivity|]. right. now exists e.
  - destruct fetched as [[[message|data]]|e]; try discriminate.
    rewrite load_sequence_eq.
    pose proof (on_data_effect data st) as (_ & _ & Hcon & Hunc & Hpen & Hls).
    destruct (on_data data st) as [[[]|e] st1]; cbn [fst snd] in *.
    + destruct Hls as ((c & st2 & Htr & Hcl) & Hchg).
      split; [exact Hunc|]. split; [exact Hpen|].
      left. exists data, c, st2. repeat split; assumption.
    + destruct Hls as (Hcl & Hchg).
      split; [exact Hunc|]. split; [exact Hpen|].
      right. exists e. simpl. rewrite Hcon. repeat split; assumption.
Qed.

(** Every error of the chain is logged and none escapes.  Whatever the
    fetch brings, the load sequence leaves no error for the page; either the
    response was JSON and its transformation completed, nothing is logged and
    one click and one change listener are added, or exactly one error is
    logged and no listener is added. *)
Theorem load_sequence_logs_or_listens (fetched : settled Response) (st : page) :
  let st' := load_sequence fetched st in
  uncaught st' = uncaught st /\
  ((exists data c st1,
      fetched = Fulfilled {| response_body := Json data |} /\
      transform data st = (Normal c, st1) /\
      console st' = console st /\
      click_listeners st' = click_listeners st ++ [c] /\
      change_listeners st' = S (change_listeners st)) \/
   (exists e,
      console st' = console st ++ [("Error fetching data:", e)] /\
      click_listeners st' = click_listeners st /\
      change_listeners st' = change_listeners st)).
Proof.
  destruct (load_sequence_cases fetched st) as (Hunc & _ & H). now split.
Qed.

(** *** The order of [Object.keys] *)

Lemma insert_index_ascending (x : N * string) (l : list (N * string)) :
  ascending l -> ascending (JsObject.insert_index x l).
Proof.
  unfold ascending.
  induction 1 as [|y l Hl IH Hy]; cbn [JsObject.insert_index].
  - repeat constructor.
  - destruct (N.leb_spec (fst x) (fst y)) as [Hle|Hlt].
    + constructor; [now constructor|].
      constructor; [exact Hle|].
      eapply Forall_impl; [|exact Hy]. cbv beta. intros z Hz. lia.
    + constructor; [exact IH|].
      eapply Permutation_Forall; [apply Permutation_sym, insert_index_perm|].
      constructor; [lia | exact Hy].
Qed.

Lemma sort_index_ascending (l : list (N * string)) : ascending (JsObject.sort_index l).
Proof.
  induction l as [|x l IH]; cbn [JsObject.sort_index fold_right].
  - constructor.
  - now apply insert_index_ascending.
Qed.

Lemma sort_index_of_ascending (l : list (N * string)) :
  ascending l -> JsObject.sort_index l = l.
Proof.
  unfold ascending.
  induction 1 as [|x l Hl IH Hx]; [reflexivity|].
  change (JsObject.sort_index (x :: l)) with (JsObject.insert_index x (JsObject.sort_index l)).
  rewrite IH. destruct l as [|y l]; [reflexivity|].
  cbn [JsObject.insert_index]. inversion Hx as [|? ? Hxy _]; subst.
  destruct (N.leb_spec (fst x) (fst y)); [reflexivity | lia].
Qed.

Lemma ascending_filter (P : N * string -> bool) (l : list (N * string)) :
  ascending l -> ascending (filter P l).
Proof.
  unfold ascending.
  induction 1 as [|x l Hl IH Hx]; cbn [filter]; [constructor|].
  destruct (P x); [|exact IH].
  constructor; [exact IH|].
  rewrite Forall_forall in *. intros y Hy. apply Hx. now apply filter_In in Hy.
Qed.

Lemma index_keys_indexed (ks : list string) : indexed (JsObject.index_keys ks).
Proof.
  unfold indexed, JsObject.index_keys.
  induction ks as [|k ks IH]; cbn [flat_map]; [constructor|].
  destruct (JsObject.array_index k) eqn:Hk; cbn [app]; [|exact IH].
  constructor; [exact Hk | exact IH].
Qed.

Lemma index_keys_of_indexed (P : string -> bool) (l : list (N * string)) :
  indexed l ->
  JsObject.index_keys (filter P (map snd l)) = filter (fun p => P (snd p)) l /\
  JsObject.string_keys (filter P (map snd l)) = [].
Proof.
  unfold indexed, JsObject.index_keys, JsObject.string_keys.
  induction 1 as [|[n k] l Hk _ [IH1 IH2]]; cbn [map filter flat_map snd fst] in *;
    [now split|].
  destruct (P k); cbn [flat_map filter]; [|now split].
  rewrite Hk. cbn [app]. now rewrite IH1, IH2.
Qed.

Lemma string_keys_of_strings (P : string -> bool) (ks : list string) :
  JsObject.index_keys (filter P (JsObject.string_keys ks)) = [] /\
  JsObject.string_keys (filter P (JsObject.string_keys ks)) =
    filter P (JsObject.string_keys ks).
Proof.
  unfold JsObject.index_keys, JsObject.string_keys.
  induction ks as [|k ks [IH1 IH2]]; cbn [filter flat_map]; [now split|].
  destruct (JsObject.array_index k) eqn:Hk; cbn [filter]; [now split|].
  destruct (P k); cbn [flat_map filter]; [|now split].
  rewrite Hk. cbn [app]. now rewrite IH1, IH2.
Qed.

(** Keys that are created in an order [Object.keys] gave are listed by
    [Object.keys] in that order again, also when some were left out. *)
Lemma keys_of_filtered_keys {V W : Type} (o : JsObject.t V) (o' : JsObject.t W)
    (P : string -> bool) :
  map fst o' = filter P (JsObject.keys o) ->
  JsObject.keys o' = filter P (JsObject.keys o).
Proof.
  intros Ho'. unfold JsObject.keys at 1. rewrite Ho'. unfold JsObject.keys.
  set (S := JsObject.sort_index (JsObject.index_keys (map fst o))).
  set (T := JsObject.string_keys (map fst o)).
  assert (HS : indexed S).
  { unfold indexed. eapply Permutation_Forall;
      [apply Permutation_sym, sort_index_perm | apply index_keys_indexed]. }
  destruct (index_keys_of_indexed P S HS) as [HS1 HS2].
  destruct (string_keys_of_strings P (map fst o)) as [HT1 HT2]. fold T in HT1, HT2.
  rewrite filter_app.
  unfold JsObject.index_keys, JsObject.string_keys in *.
  rewrite flat_map_app, filter_app, HS1, HS2, HT1, HT2, app_nil_r. cbn [app].
  f_equal.
  fold (JsObject.sort_index (filter (fun p => P (snd p)) S)).
  rewrite sort_index_of_ascending by (apply ascending_filter, sort_index_ascending).
  clear. induction S as [|[n k] S IH]; cbn [filter map snd]; [reflexivity|].
  destruct (P k); cbn [map snd]; now rewrite IH.
Qed.

(** *** What the load captures for the charts *)

Lemma set_fresh {V : Type} (o : JsObject.t V) (k : string) (v : V) :
  ~ In k (map fst o) -> JsObject.set k v o = o ++ [(k, v)].
Proof.
  induction o as [|[k' v'] o IH]; cbn [JsObject.set map fst In app]; [reflexivity|].
  intros Hk. destruct (String.eqb_spec k k') as [->|Hne]; [tauto|].
  rewrite IH by tauto. reflexivity.
Qed.

Lemma get_of_table {V : Type} (f : string -> V) (ks : list string) (k : string) :
  In k ks -> JsObject.get k (map (fun k => (k, f k)) ks) = Some (f k).
Proof.
  induction ks as [|k' ks IH]; cbn [In map JsObject.get]; [tauto|].
  intros Hk. destruct (String.eqb_spec k k') as [->|Hne]; [reflexivity|].
  apply IH. destruct Hk; congruence.
Qed.

Lemma values_of_keys {V : Type} (o : JsObject.t V) :
  map Some (JsObject.values o) = map (fun k => JsObject.get k o) (JsObject.keys o).
Proof.
  unfold JsObject.values.
  assert (H : forall k, In k (JsObject.keys o) -> exists v, JsObject.get k o = Some v).
  { intros k Hk. now apply get_key, keys_In. }
  induction (JsObject.keys o) as [|k ks IH]; cbn [flat_map map]; [reflexivity|].
  destruct (H k (or_introl eq_refl)) as [v Hv]. rewrite Hv. cbn [app map].
  rewrite IH by (intros k' Hk'; apply H; now right). reflexivity.
Qed.

Lemma drug_loop_captures (data : DatasetResponse) (ks : list string) :
  forall (vars : captured) (i : nat) (st : page) (c : captured) (st' : page),
    forEach_with (per_drug data) vars ks i st = (Normal c, st') ->
    map dataset_view (datasets c) =
      map dataset_view (datasets vars) ++ map (fun k => (k, totals_of data k, false)) ks /\
    (NoDup ks ->
     (forall k, In k ks -> ~ In k (map fst (totalSpendingData vars))) ->
     totalSpendingData c =
       totalSpendingData vars ++
       map (fun k => (k, reduce PrimFloat.add 0%float (totals_of data k)))
           (filter stored_key ks)).
Proof.
  induction ks as [|k ks IH]; intros vars i st c st'; cbn [forEach_with].
  - intros [= <- <-]. cbn [map filter]. now rewrite !app_nil_r.
  - unfold bind. rewrite per_drug_eq.
    destruct (JsObject.get k data) as [s|] eqn:Hk; [|discriminate].
    assert (Hs : totals_of data k = total_spending s) by (unfold totals_of; now rewrite Hk).
    destruct (year_rows k (total_spending s) (avg_spending s) (years s) 0) as [[[]|e] rows];
      [|discriminate].
    intros H. apply IH in H. destruct H as (Hsets & Htotals).
    cbn [vars_after datasets totalSpendingData] in Hsets, Htotals.
    split.
    + rewrite Hsets, map_app, <- app_assoc. cbn [map app]. now rewrite Hs.
    + intros Hnd Hfresh. inversion Hnd as [|? ? Hk_notin Hnd']; subst.
      assert (Hstep :
        JsObject.assign k (reduce PrimFloat.add 0%float (total_spending s))
          (totalSpendingData vars) =
        totalSpendingData vars ++
        map (fun k => (k, reduce PrimFloat.add 0%float (totals_of data k)))
            (if stored_key k then [k] else [])).
      { unfold JsObject.assign, stored_key.
        destruct (String.eqb k "__proto__"); cbn [negb map].
        - now rewrite app_nil_r.
        - rewrite set_fresh by (apply Hfresh; now left).
          cbn [map]. now rewrite Hs. }
      rewrite Htotals, Hstep; [| exact Hnd' |].
      * cbn [filter]. rewrite <- app_assoc. f_equal.
        destruct (stored_key k); reflexivity.
      * intros k' Hk' Hin. rewrite Hstep, map_app in Hin.
        apply in_app_or in Hin. destruct Hin as [Hin|Hin].
        -- apply (Hfresh k'); [now right | exact Hin].
        -- destruct (stored_key k); cbn [map fst In] in Hin; [|tauto].
           destruct Hin as [<-|[]]. contradiction.
Qed.

(** The datasets of the line and bar charts.  When the load transformation
    completes, it has captured one dataset per drug, in the order of
    [Object.keys]: its label is the drug, its data is the drug's whole
    [total_spending], and it is not filled. *)
Theorem datasets_follow_drugs (data : DatasetResponse) (st st' : page) (c : captured) :
  transform data st = (Normal c, st') ->
  map dataset_view (datasets c) =
  map (fun k => (k, totals_of data k, false)) (JsObject.keys data).
Proof.
  intros Htr. now destruct (drug_loop_captures data _ _ _ _ _ _ Htr) as [H _].
Qed.

(** The slices of the pie chart.  When the load transformation completes
    on a response with distinct drug names, the keys of the pie aggregate
    are the drugs other than "__proto__" in the order in which the table
    lists them, and its values are the sums of their [total_spending], in
    that order. *)
Theorem pie_follows_drugs (data : DatasetResponse) (st st' : page) (c : captured) :
  JsObject.wf data ->
  transform data st = (Normal c, st') ->
  JsObject.keys (totalSpendingData c) = filter stored_key (JsObject.keys data) /\
  JsObject.values (totalSpendingData c) =
    map (fun k => seq_sum (totals_of data k)) (filter stored_key (JsObject.keys data)).
Proof.
  intros Hwf Htr.
  destruct (drug_loop_captures data _ _ _ _ _ _ Htr) as [_ Htotals].
  specialize (Htotals (keys_NoDup data Hwf) (fun _ _ H => H)).
  cbn [no_variables totalSpendingData app] in Htotals.
  assert (Hkeys : JsObject.keys (totalSpendingData c) =
                  filter stored_key (JsObject.keys data)).
  { apply keys_of_filtered_keys. rewrite Htotals, map_map. cbn [fst]. apply map_id. }
  split; [exact Hkeys|].
  apply (f_equal (map Some)) in Hkeys.
  assert (Hinj : forall a b : list float, map Some a = map Some b -> a = b).
  { induction a as [|x a IHa]; intros [|y b]; cbn [map]; try discriminate; [reflexivity|].
    intros [= -> H]. f_equal. now apply IHa. }
  apply Hinj. rewrite values_of_keys, map_map.
  replace (JsObject.keys (totalSpendingData c)) with (filter stored_key (JsObject.keys data))
    by (symmetry; apply keys_of_filtered_keys; rewrite Htotals, map_map; apply map_id).
  apply map_ext_in. intros k Hk. rewrite Htotals, <- reduce_seq_sum.
  now apply (get_of_table (fun k => reduce PrimFloat.add 0%float (totals_of data k))).
Qed.

(** The pie chart is aligned.  When [renderPieChart] completes it has
    constructed one pie chart, whose labels are the keys of the aggregate it
    was given, with one colour per label and, at each position, the value
    that the aggregate holds for the label at that position. *)
Theorem pie_chart_is_aligned (totals : JsObject.t float) (st st' : page) :
  renderPieChart totals st = (Normal tt, st') ->
  exists ls vs cs,
    charts st' = charts st ++ [PieChart ls vs cs] /\
    ls = JsObject.keys totals /\
    List.length cs = List.length ls /\
    map Some vs = map (fun l => JsObject.get l totals) ls.
Proof.
  unfold renderPieChart, bind. rewrite colors_loop. unfold new_Chart.
  match goal with |- context [Chart_throws ?l ?ch] => destruct (Chart_throws l ch) end;
    [discriminate|].
  intros [= <-]. eexists _, _, _. split; [reflexivity|].
  split; [reflexivity|]. split; [|apply values_of_keys].
  generalize (random_calls st).
  induction (JsObject.keys totals) as [|k ks IH]; intros n; cbn [colors_from List.length];
    [reflexivity|].
  now rewrite IH.
Qed.

(** The order of the drugs.  After a load that completed, the options
    added to the filter (and so the drugs of the table, the datasets and the
    pie) come in this order: first the drugs whose names are array indices,
    in ascending order of the index, then the other drugs in the order of
    the response. *)
Theorem drugs_are_visited_in_key_order (data : DatasetResponse) (st st' : page) :
  on_data data st = (Normal tt, st') ->
  exists idx,
    map option_value (skipn (List.length (drugFilter st)) (drugFilter st')) =
      map snd idx ++ JsObject.string_keys (map fst data) /\
    ascending idx /\
    indexed idx /\
    Permutation idx (JsObject.index_keys (map fst data)).
Proof.
  rewrite on_data_eq.
  destruct (transform data st) as [[c|e] st1] eqn:Htr; [|discriminate].
  intros [= <-].
  destruct (drug_loop_vars data _ _ _ _ _ _ Htr) as (Hopt & _).
  exists (JsObject.sort_index (JsObject.index_keys (map fst data))).
  cbn [drugFilter with_change_listeners with_click_listeners].
  rewrite Hopt, skipn_app, Nat.sub_diag, skipn_all. cbn [skipn app].
  rewrite map_map. cbn [option_of option_value]. rewrite map_id.
  split; [reflexivity|]. split; [apply sort_index_ascending|].
  split; [|apply sort_index_perm].
  unfold indexed. eapply Permutation_Forall;
    [apply Permutation_sym, sort_index_perm | apply index_keys_indexed].
Qed.

(** *** Clicks and selections *)

Lemma filterTable_only_display (selectedDrug : string) (st : page) :
  map cells (tableBody (snd (filterTable selectedDrug st))) = map cells (tableBody st) /\
  with_tableBody (tableBody st) (snd (filterTable selectedDrug st)) = st.
Proof.
  unfold filterTable.
  assert (H : map cells (snd (filter_rows selectedDrug (tableBody st))) =
              map cells (tableBody st)).
  { induction (tableBody st) as [|row rows IH]; cbn [filter_rows]; [reflexivity|].
    destruct (nth_error (cells row) 0); [|reflexivity].
    destruct (filter_rows selectedDrug rows) as [c rows']. cbn [snd map cells] in *.
    now rewrite IH. }
  destruct (filter_rows selectedDrug (tableBody st)) as [c rows]. cbn [snd] in *.
  split; [exact H | now destruct st].
Qed.

Lemma showCharts_cases (c : captured) (st : page) :
  let colors := colors_from 0x1.6666666666666p-1 (random_calls st)
                  (List.length (JsObject.keys (totalSpendingData c))) in
  let line := LineChart (labels c) (datasets c) in
  let bar := BarChart (labels c) (datasets c) in
  let pie := PieChart (JsObject.keys (totalSpendingData c))
               (JsObject.values (totalSpendingData c)) colors in
  let shown := with_chartContainer_display "block" st in
  let drawn := with_random_calls
                 (3 * List.length (JsObject.keys (totalSpendingData c)) + random_calls st)
                 shown in
  showCharts c st =
  match Chart_throws (charts st) line with
  | Some e => (Throw e, shown)
  | None =>
      match Chart_throws (charts st ++ [line]) bar with
      | Some e => (Throw e, with_charts (charts st ++ [line]) shown)
      | None =>
          match Chart_throws (charts st ++ [line; bar]) pie with
          | Some e => (Throw e, with_charts (charts st ++ [line; bar]) drawn)
          | None => (Normal tt, with_charts (charts st ++ [line; bar; pie]) drawn)
          end
      end
  end.
Proof.
  cbv zeta.
  unfold showCharts, renderLineChart, renderBarChart, renderPieChart.
  unfold bind at 1. cbv iota beta.
  unfold bind at 1. unfold new_Chart at 1.
  cbn [charts with_chartContainer_display].
  destruct (Chart_throws (charts st) (LineChart (labels c) (datasets c))); [reflexivity|].
  unfold bind at 1. unfold new_Chart at 1. cbn [charts with_charts].
  destruct (Chart_throws (charts st ++ [LineChart (labels c) (datasets c)])
              (BarChart (labels c) (datasets c))); [reflexivity|].
  unfold bind. rewrite colors_loop. unfold new_Chart.
  cbn [charts with_charts with_random_calls random_calls with_chartContainer_display].
  rewrite <- !app_assoc. cbn [app].
  match goal with |- context [Chart_throws ?l ?ch] => destruct (Chart_throws l ch) end;
    destruct st; reflexivity.
Qed.

Lemma filter_rows_after (s1 s2 : string) (rows : list tr) :
  filter_rows s2 (snd (filter_rows s1 rows)) = filter_rows s2 rows.
Proof.
  induction rows as [|row rows IH]; cbn [filter_rows]; [reflexivity|].
  destruct (nth_error (cells row) 0) as [drugName|] eqn:Hcell.
  - destruct (filter_rows s1 rows) as [c rows'] eqn:Hrows.
    cbn [snd filter_rows cells] in *. now rewrite Hcell, IH.
  - cbn [snd filter_rows]. now rewrite Hcell.
Qed.

(** The last selection wins.  Filtering by one selection and then by
    another leaves the page as filtering by the second alone does, and
    completes as it does: nothing of an earlier selection stays behind. *)
Theorem filterTable_last_selection_wins (s1 s2 : string) (st : page) :
  filterTable s2 (snd (filterTable s1 st)) = filterTable s2 st.
Proof.
  unfold filterTable.
  pose proof (filter_rows_after s1 s2 (tableBody st)) as H.
  destruct (filter_rows s1 (tableBody st)) as [c1 rows1]. cbn [snd tableBody with_tableBody] in *.
  rewrite H. destruct (filter_rows s2 (tableBody st)) as [c2 rows2]. reflexivity.
Qed.

(** Filtering changes visibility only.  Whatever the selection and the
    table, also when it throws, [filterTable] keeps the rows, their order
    and their cells, and changes nothing of the page outside the table
    body. *)
Theorem filterTable_changes_only_display (selectedDrug : string) (st : page) :
  map cells (tableBody (snd (filterTable selectedDrug st))) = map cells (tableBody st) /\
  with_tableBody (tableBody st) (snd (filterTable selectedDrug st)) = st.
Proof. apply filterTable_only_display. Qed.

Lemma showCharts_elsewhere (c : captured) (st : page) :
  with_charts (charts st)
    (with_random_calls (random_calls st)
       (with_chartContainer_display (chartContainer_display st)
          (snd (showCharts c st)))) = st.
Proof.
  pose proof (showCharts_cases c st) as H. cbv zeta in H. rewrite H.
  repeat match goal with |- context [Chart_throws ?l ?ch] => destruct (Chart_throws l ch) end;
    now destruct st.
Qed.

Lemma dispatch_click_single (c : captured) (st : page) :
  click_listeners st = [c] ->
  dispatch ShowChartsClick st =
  match showCharts c st with
  | (Normal _, st') => st'
  | (Throw e, st') => with_uncaught (uncaught st' ++ [e]) st'
  end.
Proof.
  intros Hc. cbn [dispatch]. rewrite Hc. cbn [map run_listeners].
  now destruct (showCharts c st) as [[[]|e] st'].
Qed.

(** A click renders the charts in turn until one is refused.  With the
    one click listener of a completed load, a click shows the chart
    container and constructs the line, bar and pie charts in this order;
    when the library throws for one of them, the charts before it stay, the
    later ones are not constructed, and the error reaches the page
    uncaught. *)
Theorem click_renders_until_refused (c : captured) (st : page) :
  click_listeners st = [c] ->
  let st' := dispatch ShowChartsClick st in
  chartContainer_display st' = "block" /\
  exists colors n,
    charts st' = charts st ++ firstn n (three_charts c colors) /\
    ((n = 3%nat /\ uncaught st' = uncaught st) \/
     (n < 3 /\
      exists e,
        uncaught st' = uncaught st ++ [e] /\
        Chart_throws (charts st ++ firstn n (three_charts c colors))
          (nth n (three_charts c colors) (LineChart [] [])) = Some e))%nat.
Proof.
  intros Hc. cbv zeta. rewrite (dispatch_click_single c st Hc).
  pose proof (showCharts_cases c st) as H. cbv zeta in H. rewrite H. clear H.
  set (colors := colors_from _ (random_calls st) _).
  destruct (Chart_throws (charts st) (LineChart (labels c) (datasets c))) as [e|] eqn:H1.
  { split; [reflexivity|]. exists colors, 0%nat. cbn [firstn]. rewrite app_nil_r.
    split; [reflexivity|]. right. split; [lia|]. exists e. now split. }
  destruct (Chart_throws (charts st ++ [LineChart (labels c) (datasets c)])
              (BarChart (labels c) (datasets c))) as [e|] eqn:H2.
  { split; [reflexivity|]. exists colors, 1%nat.
    split; [reflexivity|]. right. split; [lia|]. exists e. now split. }
  match goal with |- context [Chart_throws ?l ?ch] =>
    destruct (Chart_throws l ch) as [e|] eqn:H3 end.
  { split; [reflexivity|]. exists colors, 2%nat.
    split; [reflexivity|]. right. split; [lia|]. exists e. now split. }
  split; [reflexivity|]. exists colors, 3%nat.
  split; [reflexivity|]. left. now split.
Qed.

Lemma run_cons (ev : event) (evs : list event) (st : page) :
  run (ev :: evs) st = run evs (dispatch ev st).
Proof. reflexivity. Qed.

Lemma run_clicks (c : captured) (k : nat) :
  (forall l ch, Chart_throws l ch = None) ->
  forall st,
    click_listeners st = [c] ->
    let st' := run (repeat ShowChartsClick k) st in
    click_listeners st' = [c] /\
    tableBody st' = tableBody st /\
    uncaught st' = uncaught st /\
    exists added,
      charts st' = charts st ++ added /\
      List.length added = (3 * k)%nat /\
      Forall (chart_of c) added.
Proof.
  intros Hnever. induction k as [|k IH]; intros st Hc; cbv zeta.
  - cbn [repeat run fold_left]. repeat split; try assumption.
    exists []. rewrite app_nil_r. repeat split. constructor.
  - cbn [repeat]. rewrite run_cons.
    rewrite (dispatch_click_single c st Hc), (showCharts_all c st Hnever).
    set (st1 := with_charts _ _).
    destruct (IH st1) as (Hc' & Ht & Hu & added & Hch & Hlen & Hall); [exact Hc|].
    split; [exact Hc'|]. split; [exact Ht|]. split; [exact Hu|].
    eexists (_ :: _ :: _ :: added). rewrite Hch. subst st1.
    cbn [charts with_charts]. rewrite <- app_assoc. cbn [app].
    split; [reflexivity|]. split; [cbn [List.length]; lia|].
    repeat apply Forall_cons; auto using chart_of_line, chart_of_bar, chart_of_pie.
Qed.

(** Every click renders again.  With the one click listener of a
    completed load and a library that accepts every chart, [k] clicks in a
    row construct [3 * k] charts, all of them from the variables the load
    captured: earlier charts are neither replaced nor disposed of; the
    table is not touched and no error reaches the page. *)
Theorem every_click_adds_three_charts (c : captured) (k : nat) (st : page) :
  click_listeners st = [c] ->
  (forall l ch, Chart_throws l ch = None) ->
  let st' := run (repeat ShowChartsClick k) st in
  tableBody st' = tableBody st /\
  uncaught st' = uncaught st /\
  exists added,
    charts st' = charts st ++ added /\
    List.length added = (3 * k)%nat /\
    Forall (chart_of c) added.
Proof.
  intros Hc Hnever.
  destruct (run_clicks c k Hnever st Hc) as (_ & H). exact H.
Qed.

Lemma user_events_without_listeners (evs : list event) (st : page) :
  click_listeners st = [] -> change_listeners st = 0%nat ->
  Forall user_event evs ->
  run evs st = st.
Proof.
  intros Hclick Hchange Hall.
  induction Hall as [|ev evs Hev _ IH]; [reflexivity|].
  rewrite run_cons.
  assert (Hstep : dispatch ev st = st).
  { destruct ev as [fetched| |value]; cbn [dispatch user_event] in *.
    - destruct Hev.
    - now rewrite Hclick.
    - now rewrite Hchange. }
  now rewrite Hstep.
Qed.

(** Nothing happens before the load.  While the request has not settled,
    clicks on the show-charts button and selections in the filter change
    nothing on the page: the listeners are added by the continuation of the
    fetch only. *)
Theorem user_events_wait_for_the_load (rows : list tr) (options : list option_el)
    (evs : list event) :
  Forall user_event evs ->
  run evs (loading rows options) = loading rows options.
Proof. now apply user_events_without_listeners. Qed.

Lemma run_listeners_keep {X : Type} (f : page -> X) (ls : list (M unit)) :
  (forall l st, In l ls -> f (snd (l st)) = f st) ->
  (forall es st, f (with_uncaught es st) = f st) ->
  forall st, f (run_listeners ls st) = f st.
Proof.
  intros Hl Hu. induction ls as [|l ls IH]; intros st; cbn [run_listeners]; [reflexivity|].
  pose proof (Hl l st (or_introl eq_refl)) as Hstep.
  destruct (l st) as [[[]|e] st1]; cbn [snd] in Hstep;
    rewrite IH by (intros l' st' Hin; apply Hl; now right);
    [|rewrite Hu]; exact Hstep.
Qed.

Lemma user_event_keeps_listeners (ev : event) (st : page) :
  user_event ev ->
  click_listeners (dispatch ev st) = click_listeners st /\
  change_listeners (dispatch ev st) = change_listeners st /\
  fetch_pending (dispatch ev st) = fetch_pending st.
Proof.
  destruct ev as [fetched| |value]; cbn [user_event dispatch]; [tauto| |]; intros _.
  - repeat split; apply run_listeners_keep; try reflexivity;
      intros l st0 Hin; apply in_map_iff in Hin; destruct Hin as (c & <- & _).
    + exact (f_equal click_listeners (showCharts_elsewhere c st0)).
    + exact (f_equal change_listeners (showCharts_elsewhere c st0)).
    + exact (f_equal fetch_pending (showCharts_elsewhere c st0)).
  - repeat split; apply run_listeners_keep; try reflexivity;
      intros l st0 Hin; apply repeat_spec in Hin; subst l.
    + exact (f_equal click_listeners (proj2 (filterTable_only_display value st0))).
    + exact (f_equal change_listeners (proj2 (filterTable_only_display value st0))).
    + exact (f_equal fetch_pending (proj2 (filterTable_only_display value st0))).
Qed.

Lemma listeners_invariant (rows : list tr) (options : list option_el) (evs : list event) :
  let st := run evs (loading rows options) in
  (fetch_pending st = true /\ click_listeners st = [] /\ change_listeners st = 0%nat) \/
  (fetch_pending st = false /\
   ((click_listeners st = [] /\ change_listeners st = 0%nat) \/
    exists c, click_listeners st = [c] /\ change_listeners st = 1%nat /\
              loaded_in rows options evs c)).
Proof.
  cbv zeta. induction evs as [|ev evs IH] using rev_ind.
  - left. repeat split.
  - rewrite run_snoc. set (st := run evs (loading rows options)) in *.
    assert (Huser : user_event ev ->
      (fetch_pending (dispatch ev st) = true /\ click_listeners (dispatch ev st) = [] /\
       change_listeners (dispatch ev st) = 0%nat) \/
      (fetch_pending (dispatch ev st) = false /\
       ((click_listeners (dispatch ev st) = [] /\ change_listeners (dispatch ev st) = 0%nat) \/
        exists c, click_listeners (dispatch ev st) = [c] /\
                  change_listeners (dispatch ev st) = 1%nat /\
                  loaded_in rows options (evs ++ [ev]) c))).
    { intros Hev. destruct (user_event_keeps_listeners ev st Hev) as (-> & -> & ->).
      destruct IH as [IH|(Hp & [IH|(c & Hc & Hch & Hin)])]; [now left | right | right].
      - split; [exact Hp | now left].
      - split; [exact Hp|]. right. exists c. repeat split; try assumption.
        now apply loaded_in_more. }
    destruct ev as [fetched| |value]; [|now apply Huser|now apply Huser].
    cbn [dispatch].
    destruct IH as [(Hp & Hc & Hch)|(Hp & IH)]; rewrite Hp.
    + right.
      pose proof (load_sequence_cases fetched (with_fetch_pending false st))
        as (_ & Hpen & Hcases).
      cbn [fetch_pending click_listeners change_listeners console with_fetch_pending]
        in Hpen, Hcases.
      split; [exact Hpen|].
      destruct Hcases as [(data & c & st1 & -> & Htr & _ & Hcl & Hchg)|(e & _ & Hcl & Hchg)].
      * right. exists c. rewrite Hcl, Hchg, Hc, Hch. repeat split.
        exists evs, [], data, st1. split; [reflexivity | exact Htr].
      * left. rewrite Hcl, Hchg. now split.
    + right. split; [exact Hp|].
      destruct IH as [IH|(c & Hc & Hch & Hin)]; [now left|].
      right. exists c. repeat split; try assumption. now apply loaded_in_more.
Qed.

(** The listeners are added once.  After any events on the page the
    script set up, either nothing listens, or exactly one click listener
    and one change listener do, and the click listener holds the variables
    that the transformation of a response captured: a click renders at most
    three charts and a selection filters the table once. *)
Theorem listeners_are_added_once (rows : list tr) (options : list option_el)
    (evs : list event) :
  let st := run evs (loading rows options) in
  (click_listeners st = [] /\ change_listeners st = 0%nat) \/
  exists c,
    click_listeners st = [c] /\ change_listeners st = 1%nat /\
    loaded_in rows options evs c.
Proof.
  destruct (listeners_invariant rows options evs) as [(_ & H)|(_ & [H|H])];
    [now left | now left | now right].
Qed.

Lemma flat_map_one {A : Type} (G : string -> list A) (D : string) (ks : list string) :
  NoDup ks -> In D ks ->
  flat_map (fun k => if String.eqb k D then G k else []) ks = G D.
Proof.
  induction 1 as [|k ks Hk Hnd IH]; cbn [In flat_map]; [tauto|].
  intros [->|HD].
  - rewrite String.eqb_refl.
    assert (Hrest : flat_map (fun k => if String.eqb k D then G k else []) ks = []).
    { clear IH Hnd. induction ks as [|k ks IH]; cbn [flat_map]; [reflexivity|].
      destruct (String.eqb_spec k D) as [->|_]; [exfalso; apply Hk; now left|].
      apply IH. intros H. apply Hk. now right. }
    now rewrite Hrest, app_nil_r.
  - destruct (String.eqb_spec k D) as [->|_]; [contradiction|]. now apply IH.
Qed.

(** *** The amounts of the table *)

Lemma string_length_app (s t : string) :
  String.length (s ++ t)%string = (String.length s + String.length t)%nat.
Proof. induction s as [|c s IH]; cbn; [reflexivity | now rewrite IH]. Qed.

Lemma digits_only_app (s t : string) :
  digits_only s = true -> digits_only t = true -> digits_only (s ++ t)%string = true.
Proof.
  induction s as [|c s IH]; cbn; [tauto|].
  intros H Ht. apply andb_true_iff in H. destruct H as [Hc Hs].
  now rewrite Hc, IH.
Qed.

Lemma zeros_shape (k : nat) :
  String.length (JsNumber.zeros k) = k /\ digits_only (JsNumber.zeros k) = true.
Proof.
  induction k as [|k [IH1 IH2]]; cbn; [now split|]. now rewrite IH1, IH2.
Qed.

Lemma digits_are_digits (n : N) : digits_only (JsNumber.digits n) = true.
Proof.
  unfold JsNumber.digits, NilZero.string_of_uint.
  assert (H : forall d, digits_only (NilEmpty.string_of_uint d) = true).
  { induction d; cbn; try reflexivity; exact IHd. }
  destruct (N.to_uint n); try reflexivity; apply H.
Qed.

Lemma substring_shape (s : string) :
  forall n m,
    (digits_only s = true -> digits_only (substring n m s) = true) /\
    (n + m <= String.length s -> String.length (substring n m s) = m)%nat.
Proof.
  induction s as [|c s IH]; intros n m.
  - destruct n, m; cbn; split; try reflexivity; try tauto; lia.
  - destruct n as [|n].
    + destruct m as [|m]; cbn [substring]; [split; reflexivity|].
      destruct (IH 0%nat m) as [IHd IHl]. cbn [digits_only String.length]. split.
      * intros H. apply andb_true_iff in H. destruct H as [Hc Hs]. now rewrite Hc, IHd.
      * intros H. rewrite IHl; lia.
    + cbn [substring]. destruct (IH n m) as [IHd IHl]. cbn [digits_only String.length]. split.
      * intros H. apply andb_true_iff in H. now apply IHd.
      * intros H. apply IHl. lia.
Qed.

Lemma fixed2_shape (n : N) :
  exists whole cents,
    JsNumber.fixed2 n = (whole ++ "." ++ cents)%string /\
    whole <> "" /\
    String.length cents = 2%nat /\
    digits_only whole = true /\
    digits_only cents = true.
Proof.
  unfold JsNumber.fixed2.
  set (d := JsNumber.digits n).
  pose proof (digits_are_digits n) as Hd. fold d in Hd.
  set (m := if Nat.leb (String.length d) 2 then (JsNumber.zeros (3 - String.length d) ++ d)%string
            else d).
  set (k := if Nat.leb (String.length d) 2 then 3%nat else String.length d).
  assert (Hm : String.length m = k /\ digits_only m = true /\ (3 <= k)%nat).
  { subst m k. destruct (Nat.leb_spec (String.length d) 2) as [Hle|Hgt].
    - destruct (zeros_shape (3 - String.length d)) as [Hz1 Hz2].
      rewrite string_length_app, Hz1. repeat split; [lia | now apply digits_only_app | lia].
    - repeat split; [exact Hd | lia]. }
  destruct Hm as (Hlen & Hdig & Hk).
  exists (substring 0 (k - 2) m), (substring (k - 2) 2 m).
  destruct (substring_shape m 0 (k - 2)) as [Hw1 Hw2].
  destruct (substring_shape m (k - 2) 2) as [Hc1 Hc2].
  split; [reflexivity|].
  split; [|split; [apply Hc2; lia | split; [now apply Hw1 | now apply Hc1]]].
  intros Hempty. specialize (Hw2 ltac:(lia)). rewrite Hempty in Hw2. cbn in Hw2. lia.
Qed.

(** Two decimals.  For a double that is finite, not zero and of magnitude
    below 10^21 (sign [s], value [m * 2^e]), [toFixed(2)] gives the sign, a
    non-empty string of digits, a point and exactly two digits; so every
    amount cell of the table reads "$", then such a number. *)
Theorem amounts_have_two_decimals (x : float) (s : bool) (m : positive) (e : Z) :
  Prim2SF x = S754_finite s m e ->
  (e < 0 \/ Z.pos m * 2 ^ e < 10 ^ 21)%Z ->
  exists whole cents,
    toFixed2 x = (JsNumber.sign s ++ whole ++ "." ++ cents)%string /\
    whole <> "" /\
    String.length cents = 2%nat /\
    digits_only whole = true /\
    digits_only cents = true.
Proof.
  intros Hx Hsmall. unfold JsNumber.toFixed2. rewrite Hx.
  assert (Hbranch : ((0 <=? e) && (10 ^ 21 <=? Z.pos m * 2 ^ e))%Z = false).
  { destruct Hsmall as [He|Hv].
    - destruct (Z.leb_spec 0 e); [lia | reflexivity].
    - destruct (Z.leb_spec (10 ^ 21) (Z.pos m * 2 ^ e)); [lia | apply andb_false_r]. }
  rewrite Hbranch.
  destruct (fixed2_shape (JsNumber.nearest_hundredth m e)) as (whole & cents & -> & H).
  now exists whole, cents.
Qed.

(** A click touches the charts only.  Whatever the page and however the
    library answers, a click on the show-charts button leaves the table
    body, the options of the filter, the console and the listeners as they
    were: it can change the chart container, the charts and the errors
    that reached the page, and nothing else of what the user sees. *)
Theorem click_leaves_table_and_filter (st : page) :
  let st' := dispatch ShowChartsClick st in
  tableBody st' = tableBody st /\
  drugFilter st' = drugFilter st /\
  console st' = console st /\
  click_listeners st' = click_listeners st /\
  change_listeners st' = change_listeners st.
Proof.
  cbv zeta. cbn [dispatch].
  repeat split; apply run_listeners_keep; try reflexivity;
    intros l st0 Hin; apply in_map_iff in Hin; destruct Hin as (c & <- & _).
  - exact (f_equal tableBody (showCharts_elsewhere c st0)).
  - exact (f_equal drugFilter (showCharts_elsewhere c st0)).
  - exact (f_equal console (showCharts_elsewhere c st0)).
  - exact (f_equal click_listeners (showCharts_elsewhere c st0)).
  - exact (f_equal change_listeners (showCharts_elsewhere c st0)).
Qed.

(** *** What a failed load leaves *)

Lemma drug_rows_stop (data : DatasetResponse) (failing : string) (s : DrugSeries)
    (after : list string) :
  JsObject.get failing data = Some s ->
  short_series s ->
  forall before,
    (forall k, In k before ->
       exists s', JsObject.get k data = Some s' /\ ~ short_series s') ->
    drug_rows data (before ++ failing :: after) =
    (Throw (undefined_property "toFixed"),
     flat_map (rows_of_drug data) before ++ series_rows failing s).
Proof.
  intros Hget Hshort.
  induction before as [|k before IH]; intros Hbefore; cbn [app flat_map drug_rows].
  - rewrite Hget.
    pose proof (year_rows_series failing s) as Hrows.
    pose proof (year_rows_short failing (total_spending s) (avg_spending s) (years s) 0
                  (Nat.le_0_l _) (Nat.le_0_l _) Hshort) as Hthrow.
    destruct (year_rows failing (total_spending s) (avg_spending s) (years s) 0)
      as [c rows]; cbn [fst snd] in *. now subst.
  - destruct (Hbefore k (or_introl eq_refl)) as (s' & Hk & Hlong).
    unfold rows_of_drug at 1. rewrite Hk.
    apply not_short_enough in Hlong. destruct Hlong as [Ht Ha].
    rewrite year_rows_valid by assumption.
    rewrite IH by (intros k' Hk'; apply Hbefore; now right).
    now rewrite app_assoc.
Qed.

Lemma short_series_rows (drug : string) (s : DrugSeries) :
  short_series s ->
  List.length (series_rows drug s) =
  Nat.min (List.length (total_spending s)) (List.length (avg_spending s)).
Proof.
  unfold short_series, series_rows. rewrite length_map, !length_combine. lia.
Qed.

(** No rollback.  Take a response in which every drug has its three arrays
    of numbers, and let D be the first drug, in the order of [Object.keys],
    that has fewer totals or fewer averages than years.  Then the load
    throws the TypeError of the missing amount and leaves in the table the
    rows that were there, then all the rows of the drugs before D, then the
    rows of D for the years before its first missing amount, which are as
    many as the shorter of its two amount arrays has elements.  No row that
    was appended is taken back. *)
Theorem rows_before_the_error_stay (data : DatasetResponse) (st : page)
    (before after : list string) (D : string) (s : DrugSeries) :
  JsObject.keys data = before ++ D :: after ->
  (forall k s', In k before -> JsObject.get k data = Some s' -> ~ short_series s') ->
  JsObject.get D data = Some s ->
  short_series s ->
  fst (on_data data st) = Throw (undefined_property "toFixed") /\
  tableBody (snd (on_data data st)) =
    (tableBody st ++ flat_map (rows_of_drug data) before) ++ series_rows D s /\
  List.length (series_rows D s) =
    Nat.min (List.length (total_spending s)) (List.length (avg_spending s)).
Proof.
  intros Hkeys Hbefore HD Hshort.
  pose proof (on_data_effect data st) as (Ho & Ht & _).
  rewrite Hkeys in Ho, Ht.
  rewrite (drug_rows_stop data D s after HD Hshort before) in Ho, Ht.
  2,3: intros k Hk;
       assert (Hin : In k (JsObject.keys data)) by (rewrite Hkeys; apply in_or_app; now left);
       apply keys_In, get_key in Hin; destruct Hin as [s' Hs'];
       exists s'; split; [exact Hs' | now apply (Hbefore k)].
  cbn [fst snd] in Ho, Ht.
  split; [|split; [now rewrite Ht, app_assoc | now apply short_series_rows]].
  destruct (fst (on_data data st)) as [[]|e]; cbn [same_outcome] in Ho;
    [destruct Ho | now subst].
Qed.

(** *** Strings without markup *)

Lemma plain_app (s t : string) :
  Html.plain (s ++ t)%string = Html.plain s && Html.plain t.
Proof.
  induction s as [|c s IH]; cbn [append Html.plain]; [reflexivity|].
  now rewrite IH, andb_assoc.
Qed.

Lemma digit_text_char (c : ascii) :
  JsObject.is_digit c = true -> Html.text_char c = true.
Proof. destruct c as [[] [] [] [] [] [] [] []]; vm_compute; congruence. Qed.

Lemma digits_only_plain (s : string) : digits_only s = true -> Html.plain s = true.
Proof.
  induction s as [|c s IH]; cbn [digits_only Html.plain]; [reflexivity|].
  intros H. apply andb_true_iff in H. destruct H as [Hc Hs].
  now rewrite (digit_text_char c Hc), IH.
Qed.

Lemma sign_plain (b : bool) : Html.plain (JsNumber.sign b) = true.
Proof. now destruct b. Qed.

Lemma Number_toString_plain (x : float) :
  plain_digits -> Html.plain (Number_toString x) = true.
Proof.
  intros Hd. unfold JsNumber.Number_toString.
  destruct (Prim2SF x) as [s | s | | s m e]; try reflexivity.
  - now destruct s.
  - destruct (JsNumber.safe_integer m e) as [n|]; rewrite plain_app, sign_plain; cbn [andb].
    + apply digits_only_plain, digits_are_digits.
    + apply Hd.
Qed.

Lemma toFixed2_plain (x : float) :
  plain_digits -> Html.plain (toFixed2 x) = true.
Proof.
  intros Hd. unfold JsNumber.toFixed2.
  destruct (Prim2SF x) as [s | s | | s m e]; try reflexivity.
  - now destruct s.
  - destruct ((0 <=? e) && (10 ^ 21 <=? Z.pos m * 2 ^ e))%Z;
      rewrite plain_app, sign_plain; cbn [andb].
    + now apply Number_toString_plain.
    + destruct (fixed2_shape (JsNumber.nearest_hundredth m e))
        as (whole & cents & -> & _ & _ & Hw & Hc).
      rewrite !plain_app, (digits_only_plain whole Hw), (digits_only_plain cents Hc).
      reflexivity.
Qed.

Lemma ToString_plain (y : year) :
  plain_digits -> plain_label y -> Html.plain (ToString y) = true.
Proof.
  intros Hd Hy. destruct y as [x|s]; [now apply Number_toString_plain | exact Hy].
Qed.

Lemma dollar_plain (s : string) : Html.plain s = true -> Html.plain ("$" ++ s)%string = true.
Proof. intros H. rewrite plain_app, H. reflexivity. Qed.

(** *** The row template, parsed *)

Lemma strip_prefix_app (p s : string) : Html.strip_prefix p (p ++ s)%string = Some s.
Proof.
  induction p as [|c p IH]; cbn [append Html.strip_prefix]; [now destruct s|].
  now rewrite Ascii.eqb_refl.
Qed.

Lemma scan_text_plain (text rest : string) :
  Html.plain text = true ->
  Html.scan_text (text ++ String "<" rest)%string = Some (text, String "<"%char rest).
Proof.
  induction text as [|c text IH]; cbn [append Html.scan_text Html.plain]; intros H.
  - reflexivity.
  - apply andb_true_iff in H. destruct H as [Hc Ht].
    assert (Hlt : Ascii.eqb c "<" = false).
    { pose proof Hc as Hc'. unfold Html.text_char in Hc'.
      destruct (Ascii.eqb c "<"); [discriminate Hc' | reflexivity]. }
    now rewrite Hlt, Hc, IH.
Qed.

Lemma row_step_mono (f g : string -> option (list string)) :
  (forall s r, f s = Some r -> g s = Some r) ->
  forall s r, Html.row_step f s = Some r -> Html.row_step g s = Some r.
Proof.
  intros H s r. unfold Html.row_step.
  destruct s as [|c rest]; [trivial|].
  destruct (Html.is_space c); [apply H|].
  destruct (Html.strip_prefix "<td>" (String c rest)) as [inside|]; [|trivial].
  destruct (Html.scan_text inside) as [[text after]|]; [|trivial].
  destruct (Html.strip_prefix "</td>" after) as [after'|]; [|trivial].
  destruct (f after') as [r'|] eqn:Hf; [|discriminate].
  now rewrite (H _ _ Hf).
Qed.

Lemma row_cells_enough (fuel fuel' : nat) :
  (fuel <= fuel')%nat ->
  forall s r, Html.row_cells fuel s = Some r -> Html.row_cells fuel' s = Some r.
Proof.
  revert fuel'. induction fuel as [|fuel IH]; intros fuel' Hle s r; [discriminate|].
  destruct fuel' as [|fuel']; [lia|].
  cbn [Html.row_cells]. apply row_step_mono. apply IH. lia.
Qed.

Lemma row_cells_space (c : ascii) (fuel : nat) (s : string) :
  Html.is_space c = true ->
  Html.row_cells (S fuel) (String c s) = Html.row_cells fuel s.
Proof. intros H. cbn [Html.row_cells Html.row_step]. now rewrite H. Qed.

Lemma row_cells_LF (fuel : nat) (s : string) :
  Html.row_cells (S fuel) (Html.LF ++ s)%string = Html.row_cells fuel s.
Proof. now apply row_cells_space. Qed.

Lemma row_cells_spaces (n fuel : nat) (s : string) :
  Html.row_cells (n + fuel) (Html.spaces n ++ s)%string = Html.row_cells fuel s.
Proof.
  induction n as [|n IH]; [reflexivity|].
  cbn [Nat.add Html.spaces append]. now rewrite row_cells_space.
Qed.

Lemma row_cells_last_line (n fuel : nat) :
  Html.row_cells (n + S fuel) (Html.spaces n) = Some [].
Proof.
  induction n as [|n IH]; [reflexivity|].
  cbn [Nat.add Html.spaces]. now rewrite row_cells_space.
Qed.

Lemma row_cells_cell (fuel : nat) (text s : string) :
  Html.plain text = true ->
  Html.row_cells (S fuel) ("<td>" ++ text ++ "</td>" ++ s)%string =
  option_map (cons text) (Html.row_cells fuel s).
Proof.
  intros H.
  change (Html.row_cells (S fuel) ("<td>" ++ text ++ "</td>" ++ s)%string)
    with (match Html.strip_prefix "<td>" ("<td>" ++ text ++ String "<" ("/td>" ++ s))%string with
          | None => None
          | Some inside =>
              match Html.scan_text inside with
              | None => None
              | Some (text, after) =>
                  match Html.strip_prefix "</td>" after with
                  | Some after' => option_map (cons text) (Html.row_cells fuel after')
                  | None =>
                      match Html.strip_prefix "<textarea>" after with
                      | Some content =>
                          if Html.rcdata (Html.textarea_content content)
                          then Some [(text ++ Html.textarea_content content)%string]
                          else None
                      | None => None
                      end
                  end
              end
          end).
  rewrite strip_prefix_app, scan_text_plain by assumption.
  change (String "<" ("/td>" ++ s))%string with ("</td>" ++ s)%string.
  now rewrite strip_prefix_app.
Qed.

Lemma spaces_length (n : nat) : String.length (Html.spaces n) = n.
Proof. induction n as [|n IH]; cbn [Html.spaces String.length]; [reflexivity | now rewrite IH]. Qed.

Lemma row_template_cells (indent closing : nat) (drug year total avg : string) :
  Html.plain drug = true ->
  Html.plain year = true ->
  Html.plain total = true ->
  Html.plain avg = true ->
  Html.fragment_cells (Html.row_template indent closing drug year total avg) =
  Some [drug; year; ("$" ++ total)%string; ("$" ++ avg)%string].
Proof.
  intros Hd Hy Ht Ha.
  set (cell := fun fuel => S (indent + S fuel)).
  apply (row_cells_enough (cell (cell (cell (cell (S (closing + 1))))))).
  { unfold cell, Html.row_template, Html.LF.
    rewrite !string_length_app, !spaces_length. cbn [String.length]. lia. }
  unfold cell, Html.row_template.
  rewrite row_cells_LF, row_cells_spaces, row_cells_cell by assumption.
  rewrite row_cells_LF, row_cells_spaces, row_cells_cell by assumption.
  rewrite row_cells_LF, row_cells_spaces.
  change ("<td>$" ++ total ++ "</td>" ++ ?rest)%string
    with ("<td>" ++ ("$" ++ total) ++ "</td>" ++ rest)%string.
  rewrite row_cells_cell by now apply dollar_plain.
  rewrite row_cells_LF, row_cells_spaces.
  match goal with
  | |- context [Html.row_cells ?f ("<td>$" ++ avg ++ "</td>" ++ ?rest)%string] =>
      change (Html.row_cells f ("<td>$" ++ avg ++ "</td>" ++ rest)%string)
        with (Html.row_cells f ("<td>" ++ ("$" ++ avg) ++ "</td>" ++ rest)%string)
  end.
  rewrite row_cells_cell by now apply dollar_plain.
  now rewrite row_cells_LF, row_cells_last_line.
Qed.

Lemma createRow_plain (drug year total avg : string) :
  Html.plain drug = true ->
  Html.plain year = true ->
  Html.plain total = true ->
  Html.plain avg = true ->
  createRow drug year total avg =
  {| cells := [drug; year; ("$" ++ total)%string; ("$" ++ avg)%string]; display := "" |}.
Proof.
  intros Hd Hy Ht Ha. unfold createRow, innerHTML_cells, row_innerHTML.
  now rewrite row_template_cells.
Qed.


(** *** The two scripts on a response without markup *)

Lemma plain_response_get (data : DatasetResponse) (k : string) (s : DrugSeries) :
  plain_response data -> JsObject.get k data = Some s -> plain_series k s.
Proof.
  intros Hp Hk. apply get_Some_In in Hk.
  unfold plain_response in Hp. rewrite Forall_forall in Hp. exact (Hp (k, s) Hk).
Qed.




Lemma series_rows_cells (drug : string) (s : DrugSeries) :
  plain_digits -> plain_series drug s ->
  map cells (series_rows drug s) = series_cells drug s.
Proof.
  intros Hd [Hk Hys]. unfold series_rows, series_cells. rewrite map_map.
  apply map_ext_in. intros [y [t a]] Hin. apply in_combine_l in Hin.
  rewrite Forall_forall in Hys.
  rewrite createRow_plain; auto using ToString_plain, toFixed2_plain.
Qed.

Lemma map_flat_map {A B C : Type} (f : B -> C) (g : A -> list B) (l : list A) :
  map f (flat_map g l) = flat_map (fun x => map f (g x)) l.
Proof.
  induction l as [|x l IH]; cbn [flat_map map]; [reflexivity|].
  now rewrite map_app, IH.
Qed.

Lemma response_rows_cells (data : DatasetResponse) :
  plain_digits -> plain_response data ->
  map cells (response_rows data) = response_cells data.
Proof.
  intros Hd Hp. unfold response_rows, response_cells. rewrite map_flat_map.
  apply flat_map_ext. intros k.
  destruct (JsObject.get k data) as [s|] eqn:Hk; [|reflexivity].
  apply series_rows_cells; [exact Hd | now apply (plain_response_get data)].
Qed.


(** *** The chain of the stand-alone table script *)



(** *** Loading, then selecting a drug *)

Lemma filtered_createRow (k D y t a : string) :
  Html.plain k = true ->
  Html.plain y = true ->
  Html.plain t = true ->
  Html.plain a = true ->
  D <> "all" ->
  filtered D (createRow k y t a) =
  {| cells := cells (createRow k y t a);
     display := if String.eqb k D then "" else "none" |}.
Proof.
  intros Hk Hy Ht Ha HD. rewrite createRow_plain by assumption.
  unfold filtered, drug_cell. cbn [cells nth_error].
  destruct (String.eqb_spec D "all"); [contradiction | reflexivity].
Qed.

Lemma series_rows_selected (k D : string) (s : DrugSeries) :
  plain_digits ->
  plain_series k s ->
  D <> "all" ->
  filter visible (map (filtered D) (series_rows k s)) =
  if String.eqb k D then series_rows k s else [].
Proof.
  intros Hd [Hk Hys] HD. unfold series_rows.
  assert (Hl : Forall (fun e : year * (float * float) => plain_label (fst e))
                 (combine (years s) (combine (total_spending s) (avg_spending s)))).
  { apply Forall_forall. intros [y ta] Hin. apply in_combine_l in Hin.
    rewrite Forall_forall in Hys. now apply Hys. }
  destruct (String.eqb k D) eqn:HkD;
    induction Hl as [|[y [t a]] l Hy Hl IH]; cbn [map filter]; try reflexivity;
    rewrite filtered_createRow, HkD by auto using ToString_plain, toFixed2_plain.
  - match goal with |- context [visible ?r] => change (visible r) with true end.
    cbv iota. rewrite IH. reflexivity.
  - match goal with |- context [visible ?r] => change (visible r) with false end.
    cbv iota. exact IH.
Qed.

Lemma response_rows_have_drugs (data : DatasetResponse) :
  plain_digits ->
  plain_response data ->
  Forall (fun row => drug_cell row <> None) (response_rows data).
Proof.
  intros Hd Hp.
  unfold response_rows. apply Forall_flat_map, Forall_forall. intros k _.
  destruct (JsObject.get k data) as [s|] eqn:Hk; [|constructor].
  destruct (plain_response_get data k s Hp Hk) as [Hpk Hys].
  rewrite Forall_forall in Hys.
  unfold series_rows. apply Forall_map, Forall_forall. intros [y [t a]] Hin.
  apply in_combine_l in Hin.
  rewrite createRow_plain by auto using ToString_plain, toFixed2_plain.
  discriminate.
Qed.

(** Loading, then selecting a drug.  Take a valid response whose drug names
    and year labels hold no markup (no less-than sign, ampersand, NUL or
    carriage return), with an implementation whose digits hold none.  When it
    is loaded into an empty table and the user then selects one of its drugs,
    D, other than "all", the visible rows are exactly the rows of D, one per
    year of D and in the order of its years, each with the cells D, year, "$"
    and total, "$" and average; the other rows stay in the table, hidden, and
    no error reaches the page. *)
Theorem selecting_a_drug_shows_its_rows (data : DatasetResponse)
    (options : list option_el) (D : string) (s : DrugSeries) :
  plain_digits ->
  plain_response data ->
  valid_response data ->
  JsObject.get D data = Some s ->
  D <> "all" ->
  let st := run [FetchSettled (Fulfilled {| response_body := Json data |});
                 DrugFilterChange D] (loading [] options) in
  filter visible (tableBody st) = series_rows D s /\
  map cells (filter visible (tableBody st)) = series_cells D s /\
  List.length (filter visible (tableBody st)) = List.length (years s) /\
  map cells (tableBody st) = response_cells data /\
  uncaught st = [].
Proof.
  intros Hd Hp Hvalid HD Hall. cbv zeta. rewrite !run_cons. cbn [run fold_left].
  change (dispatch (FetchSettled (Fulfilled {| response_body := Json data |}))
            (loading [] options))
    with (load_sequence (Fulfilled {| response_body := Json data |})
            (with_fetch_pending false (loading [] options))).
  rewrite load_sequence_eq.
  set (st0 := with_fetch_pending false (loading [] options)).
  destruct (on_data_valid data st0 Hvalid) as (st1 & Hrun & Ht).
  pose proof (on_data_effect data st0) as (_ & _ & _ & Hunc & _ & Hls).
  rewrite Hrun in *. cbn [fst snd] in *. destruct Hls as (_ & Hchg).
  cbn [tableBody uncaught change_listeners st0 with_fetch_pending loading app] in Ht, Hunc, Hchg.
  cbn [dispatch]. rewrite Hchg. cbn [repeat run_listeners].
  unfold filterTable. rewrite Ht.
  rewrite filter_rows_populated by now apply response_rows_have_drugs.
  cbn [tableBody with_tableBody uncaught].
  assert (Hvisible : filter visible (map (filtered D) (response_rows data)) = series_rows D s).
  { unfold response_rows.
    assert (Hflat : forall (F : string -> list tr) ks,
              filter visible (map (filtered D) (flat_map F ks)) =
              flat_map (fun k => filter visible (map (filtered D) (F k))) ks).
    { intros F ks. induction ks as [|k ks IHks]; cbn [flat_map map filter]; [reflexivity|].
      now rewrite map_app, filter_app, IHks. }
    rewrite Hflat.
    rewrite (flat_map_ext _
      (fun k => if String.eqb k D
                then match JsObject.get k data with Some s' => series_rows k s' | None => [] end
                else [])).
    - rewrite (flat_map_one _ D) by
        (first [apply keys_NoDup, Hvalid | apply keys_In, get_key; now exists s]).
      now rewrite HD.
    - intros k. destruct (JsObject.get k data) as [s'|] eqn:Hk.
      + apply series_rows_selected; [exact Hd | now apply (plain_response_get data) | exact Hall].
      + now destruct (String.eqb k D). }
  rewrite Hvisible. split; [reflexivity|].
  split; [apply series_rows_cells; [exact Hd | now apply (plain_response_get data)]|].
  split; [apply series_rows_length; destruct Hvalid as [_ Hv];
          rewrite Forall_forall in Hv; apply Hv;
          apply get_Some_In in HD; change s with (snd (D, s)); now apply in_map|].
  split; [|exact Hunc].
  rewrite <- (response_rows_cells data Hd Hp).
  rewrite map_map. apply map_ext_in. intros row Hrow.
  pose proof (response_rows_have_drugs data Hd Hp) as Hrows. rewrite Forall_forall in Hrows.
  specialize (Hrows row Hrow). unfold filtered.
  destruct (drug_cell row); [reflexivity | contradiction].
Qed.

End PredictionView.

(** ** The properties at concrete responses *)

Lemma two_drugs_valid : valid_response two_drugs.
Proof.
  split.
  - repeat constructor; simpl; intuition discriminate.
  - repeat constructor.
Defined.

(** C1, at the two drugs with two and three years: five rows. *)
Lemma row_count_witness :
  valid_response two_drugs /\
  exists st',
    on_data opacity_digits always_half no_cells two_drugs (loading [] []) = (Normal tt, st') /\
    List.length (tableBody st') = (0 + list_sum [2; 3])%nat.
Proof.
  split; [exact two_drugs_valid|].
  exact (row_count_is_sum_of_years opacity_digits always_half no_cells two_drugs (loading [] [])
           two_drugs_valid).
Defined.

(** The pie aggregate, at DrugB of the two drugs: 1 + 2 + 3. *)
Lemma pie_aggregate_witness :
  exists c st',
    transform opacity_digits always_half no_cells two_drugs (loading [] []) = (Normal c, st') /\
    JsObject.get "DrugB" (totalSpendingData c) =
    Some (seq_sum [1%float; 2%float; 3%float]).
Proof.
  refine (pie_aggregate_is_sum opacity_digits always_half no_cells two_drugs (loading [] []) "DrugB"
            _ two_drugs_valid eq_refl _).
  discriminate.
Defined.

(** The label axis, at the two drugs: the two years of DrugA. *)
Lemma labels_witness :
  exists c st',
    transform opacity_digits always_half no_cells two_drugs (loading [] []) = (Normal c, st') /\
    labels c = [YearNumber 2020; YearNumber 2021].
Proof.
  eexists _, _. split; [vm_compute; reflexivity|].
  refine (labels_are_first_drug_years opacity_digits always_half no_cells two_drugs (loading [] [])
            _ _ _).
  vm_compute. reflexivity.
Defined.

(** C5, at the two drugs. *)
Lemma filter_options_witness :
  JsObject.wf two_drugs /\
  (forall st',
     on_data opacity_digits always_half no_cells two_drugs (loading [] []) = (Normal tt, st') ->
     exists added,
       drugFilter st' = (drugFilter (loading [] []) ++ added)%list /\
       added = map option_of (JsObject.keys two_drugs) /\
       NoDup (map option_value added) /\
       (forall d, In d (map option_value added) <->
                  exists s, JsObject.get d two_drugs = Some s)) /\
  (valid_response two_drugs ->
   exists st', on_data opacity_digits always_half no_cells two_drugs (loading [] []) = (Normal tt, st')).
Proof.
  split; [exact (proj1 two_drugs_valid)|].
  exact (filter_options_are_drug_keys opacity_digits always_half no_cells two_drugs (loading [] [])
           (proj1 two_drugs_valid)).
Defined.

(** C6, amended, at the table of the two drugs and the selection DrugB. *)
Lemma filterTable_witness :
  let st := load_sequence opacity_digits always_half no_cells
              (Fulfilled {| response_body := Json two_drugs |}) (loading [] []) in
  Forall (fun row => drug_cell row <> None) (tableBody st) /\
  (fst (filterTable "all" st) = Normal tt /\
   Forall2 (fun row row' => cells row' = cells row /\ visible row' = true)
     (tableBody st) (tableBody (snd (filterTable "all" st)))) /\
  ("DrugB" <> "all" ->
   fst (filterTable "DrugB" st) = Normal tt /\
   Forall2 (fun row row' =>
              cells row' = cells row /\
              (visible row' = true <-> drug_cell row = Some "DrugB"))
     (tableBody st) (tableBody (snd (filterTable "DrugB" st)))).
Proof.
  cbv zeta.
  assert (H : Forall (fun row => drug_cell row <> None)
                (tableBody (load_sequence opacity_digits always_half no_cells
                   (Fulfilled {| response_body := Json two_drugs |}) (loading [] []))))
    by (vm_compute; repeat constructor; discriminate).
  split; [exact H|].
  exact (filterTable_shows_selected "DrugB" _ H).
Defined.

(** C6 as stated fails when a drug is named "all": selecting it shows the
    rows of the other drug too. *)
Lemma filterTable_all_counterexample :
  let st := load_sequence opacity_digits always_half no_cells
              (Fulfilled {| response_body := Json drug_named_all |}) (loading [] []) in
  let st' := snd (filterTable "all" st) in
  map drug_cell (tableBody st) = [Some "all"; Some "B"] /\
  map visible (tableBody st') = [true; true] /\
  ~ Forall2 (fun row row' => visible row' = true <-> drug_cell row = Some "all")
      (tableBody st) (tableBody st').
Proof.
  cbv zeta. split; [vm_compute; reflexivity|]. split; [vm_compute; reflexivity|].
  intros H. vm_compute in H.
  inversion H as [|? ? ? ? _ Hrest]; subst.
  inversion Hrest as [|? ? ? ? [Hvis _] _]; subst.
  specialize (Hvis eq_refl). discriminate.
Qed.

(** C3, amended, at the response with a missing total. *)
Lemma short_series_witness :
  (exists k s, JsObject.get k one_total_missing = Some s /\ short_series s) /\
  let st' := load_sequence opacity_digits always_half no_cells
               (Fulfilled {| response_body := Json one_total_missing |}) (loading [] []) in
  fst (on_data opacity_digits always_half no_cells one_total_missing (loading [] [])) =
    Throw (undefined_property "toFixed") /\
  console st' =
    (console (loading [] []) ++
     [("Error fetching data:", undefined_property "toFixed")])%list /\
  uncaught st' = uncaught (loading [] []) /\
  click_listeners st' = click_listeners (loading [] []) /\
  change_listeners st' = change_listeners (loading [] []).
Proof.
  assert (H : exists k s, JsObject.get k one_total_missing = Some s /\ short_series s).
  { eexists "DrugA", _. split; [reflexivity|]. left. simpl. lia. }
  split; [exact H|].
  exact (short_series_error_is_logged opacity_digits always_half no_cells one_total_missing
           (loading [] []) H).
Defined.

(** C3 as stated fails: with a total missing, the TypeError of the load
    transformation is caught by the handler of the load sequence, which logs
    it; no error reaches the page.  The row of the first year stays. *)
Lemma short_series_counterexample :
  let st' := load_sequence opacity_digits always_half no_cells
               (Fulfilled {| response_body := Json one_total_missing |}) (loading [] []) in
  uncaught st' = [] /\
  console st' =
    [("Error fetching data:",
      TypeError "Cannot read properties of undefined (reading 'toFixed')")] /\
  tableBody st' = [{| cells := ["DrugA"; "2020"; "$10.00"; "$5.00"]; display := "" |}].
Proof.
  vm_compute. repeat split.
Qed.

(** C2, at a request that failed, followed by a click and a selection. *)
Lemma fetch_failure_witness :
  let fetched : settled Response := Rejected (TypeError "Failed to fetch") in
  let st := dispatch opacity_digits always_half accepts_all no_cells (FetchSettled fetched)
              (loading [] []) in
  failure_of fetched = Some (TypeError "Failed to fetch") /\
  (forall st0,
     load_sequence opacity_digits always_half no_cells fetched st0 =
     with_console
       (console st0 ++ [("Error fetching data:", TypeError "Failed to fetch")])%list st0) /\
  tableBody st = [] /\
  drugFilter st = [] /\
  console st = [("Error fetching data:", TypeError "Failed to fetch")] /\
  uncaught st = [] /\
  run opacity_digits always_half accepts_all no_cells [ShowChartsClick; DrugFilterChange "all"] st = st.
Proof.
  cbv zeta. split; [reflexivity|].
  exact (fetch_failure_is_logged opacity_digits always_half accepts_all no_cells [] []
           (Rejected (TypeError "Failed to fetch")) (TypeError "Failed to fetch")
           [ShowChartsClick; DrugFilterChange "all"] eq_refl).
Defined.

(** C4, where the code departs from it.  The response with the one drug
    "__proto__", year 2020, total 30, average 30, is valid, and the load
    completes with the row and the option of the drug; but line 52 stores no
    aggregate for it: the pie aggregate has no key, and the pie chart of a
    click has no slice. *)
Lemma pie_aggregate_misses_proto :
  let st := run opacity_digits always_half accepts_all no_cells
              [FetchSettled (Fulfilled {| response_body := Json drug_named_proto |});
               ShowChartsClick] (loading [] []) in
  valid_response drug_named_proto /\
  JsObject.get "__proto__" drug_named_proto =
    Some {| years := [YearNumber 2020]; total_spending := [30%float];
            avg_spending := [30%float] |} /\
  map cells (tableBody st) = [["__proto__"; "2020"; "$30.00"; "$30.00"]] /\
  map option_value (drugFilter st) = ["__proto__"] /\
  map totalSpendingData (click_listeners st) = [[]] /\
  (exists labels datasets,
     charts st = [LineChart labels datasets; BarChart labels datasets; PieChart [] [] []]) /\
  uncaught st = [].
Proof.
  cbv zeta. split; [|split; [|split; [|split; [|split; [|split]]]]].
  - split; [repeat constructor; simpl; tauto | repeat constructor].
  - reflexivity.
  - vm_compute. reflexivity.
  - vm_compute. reflexivity.
  - vm_compute. reflexivity.
  - eexists _, _. vm_compute. reflexivity.
  - vm_compute. reflexivity.
Qed.

(** ** Further properties at concrete responses *)

(** The datasets, at the two drugs. *)
Lemma datasets_witness :
  exists c st',
    transform opacity_digits always_half no_cells two_drugs (loading [] []) = (Normal c, st') /\
    map dataset_view (datasets c) =
    [("DrugA", [10%float; 20%float], false);
     ("DrugB", [1%float; 2%float; 3%float], false)].
Proof.
  eexists _, _. split; [vm_compute; reflexivity|].
  refine (datasets_follow_drugs opacity_digits always_half no_cells two_drugs (loading [] [])
            _ _ _).
  vm_compute. reflexivity.
Defined.

(** The slices of the pie, at the drugs "__proto__" and DrugA: one slice. *)
Lemma pie_follows_witness :
  JsObject.wf proto_and_drug /\
  exists c st',
    transform opacity_digits always_half no_cells proto_and_drug (loading [] []) = (Normal c, st') /\
    JsObject.keys (totalSpendingData c) = ["DrugA"] /\
    JsObject.values (totalSpendingData c) = [seq_sum [10%float; 20%float]].
Proof.
  assert (Hwf : JsObject.wf proto_and_drug)
    by (repeat constructor; simpl; intuition discriminate).
  split; [exact Hwf|].
  eexists _, _. split; [vm_compute; reflexivity|].
  refine (pie_follows_drugs opacity_digits always_half no_cells proto_and_drug (loading [] [])
            _ _ Hwf _).
  vm_compute. reflexivity.
Defined.

(** The pie chart, at the aggregate of two drugs. *)
Lemma pie_chart_witness :
  exists st' ls vs cs,
    renderPieChart opacity_digits always_half accepts_all
      [("DrugA", 30%float); ("DrugB", 6%float)] (loading [] []) = (Normal tt, st') /\
    charts st' = (charts (loading [] []) ++ [PieChart ls vs cs])%list /\
    ls = ["DrugA"; "DrugB"] /\
    List.length cs = List.length ls /\
    map Some vs =
    map (fun l => JsObject.get l [("DrugA", 30%float); ("DrugB", 6%float)]) ls.
Proof.
  eexists. 
  assert (H : renderPieChart opacity_digits always_half accepts_all
                [("DrugA", 30%float); ("DrugB", 6%float)] (loading [] []) =
              (Normal tt, snd (renderPieChart opacity_digits always_half accepts_all
                [("DrugA", 30%float); ("DrugB", 6%float)] (loading [] []))))
    by (vm_compute; reflexivity).
  destruct (pie_chart_is_aligned opacity_digits always_half accepts_all _ _ _ H)
    as (ls & vs & cs & H1 & H2 & H3 & H4).
  exists ls, vs, cs. split; [exact H|]. repeat split; assumption.
Defined.

(** The order of the drugs, at the drugs b, 10 and 2: the options come as
    2, 10, b. *)
Lemma key_order_witness :
  exists st' idx,
    on_data opacity_digits always_half no_cells numbered_drugs (loading [] []) = (Normal tt, st') /\
    map option_value (skipn (List.length (drugFilter (loading [] []))) (drugFilter st')) =
      (map snd idx ++ JsObject.string_keys (map fst numbered_drugs))%list /\
    map option_value (drugFilter st') = ["2"; "10"; "b"] /\
    ascending idx /\
    indexed idx /\
    Permutation idx (JsObject.index_keys (map fst numbered_drugs)).
Proof.
  eexists.
  assert (H : on_data opacity_digits always_half no_cells numbered_drugs (loading [] []) =
              (Normal tt, snd (on_data opacity_digits always_half no_cells numbered_drugs
                                 (loading [] []))))
    by (vm_compute; reflexivity).
  destruct (drugs_are_visited_in_key_order opacity_digits always_half no_cells numbered_drugs _ _ H)
    as (idx & H1 & H2 & H3 & H4).
  exists idx. split; [exact H|]. split; [exact H1|].
  split; [vm_compute; reflexivity|]. repeat split; assumption.
Defined.

(** A second click with a library that allows one chart per canvas: the
    line chart is refused, nothing more is constructed, and the error
    reaches the page. *)
Lemma click_refused_witness :
  let st := run opacity_digits always_half one_chart_per_canvas no_cells
              [FetchSettled (Fulfilled {| response_body := Json two_drugs |});
               ShowChartsClick] (loading [] []) in
  let st' := dispatch opacity_digits always_half one_chart_per_canvas no_cells ShowChartsClick st in
  exists c,
    click_listeners st = [c] /\
    List.length (charts st) = 3%nat /\
    charts st' = charts st /\
    uncaught st' = [LibraryError "Canvas is already in use."] /\
    chartContainer_display st' = "block" /\
    exists colors n,
      charts st' = (charts st ++ firstn n (three_charts c colors))%list /\
      ((n = 3%nat /\ uncaught st' = uncaught st) \/
       (n < 3 /\
        exists e,
          uncaught st' = (uncaught st ++ [e])%list /\
          one_chart_per_canvas (charts st ++ firstn n (three_charts c colors))%list
            (nth n (three_charts c colors) (LineChart [] [])) = Some e))%nat.
Proof.
  cbv zeta. eexists.
  split; [vm_compute; reflexivity|].
  split; [vm_compute; reflexivity|].
  split; [vm_compute; reflexivity|].
  split; [vm_compute; reflexivity|].
  refine (click_renders_until_refused opacity_digits always_half one_chart_per_canvas no_cells
            _ _ _).
  vm_compute. reflexivity.
Defined.

(** Two clicks after the load of the two drugs, with a library that accepts
    every chart: six charts. *)
Lemma two_clicks_witness :
  let st := load_sequence opacity_digits always_half no_cells
              (Fulfilled {| response_body := Json two_drugs |}) (loading [] []) in
  let st' := run opacity_digits always_half accepts_all no_cells (repeat ShowChartsClick 2) st in
  exists c,
    click_listeners st = [c] /\
    tableBody st' = tableBody st /\
    uncaught st' = uncaught st /\
    exists added,
      charts st' = (charts st ++ added)%list /\
      List.length added = (3 * 2)%nat /\
      Forall (chart_of c) added.
Proof.
  cbv zeta. eexists. split; [vm_compute; reflexivity|].
  refine (every_click_adds_three_charts opacity_digits always_half accepts_all no_cells
            _ 2 _ _ (fun _ _ => eq_refl)).
  vm_compute. reflexivity.
Defined.

(** A click and a selection before the request has settled. *)
Lemma waiting_witness :
  Forall user_event [ShowChartsClick; DrugFilterChange "DrugA"] /\
  run opacity_digits always_half accepts_all no_cells [ShowChartsClick; DrugFilterChange "DrugA"]
    (loading [] []) = loading [] [].
Proof.
  assert (H : Forall user_event [ShowChartsClick; DrugFilterChange "DrugA"])
    by (repeat constructor).
  split; [exact H|].
  exact (user_events_wait_for_the_load opacity_digits always_half accepts_all no_cells [] [] _ H).
Defined.

(** Two decimals, at the double 1234.5: "1234.50". *)
Lemma two_decimals_witness :
  exists whole cents,
    JsNumber.toFixed2 opacity_digits 1234.5%float =
      (JsNumber.sign false ++ whole ++ "." ++ cents)%string /\
    whole <> "" /\
    String.length cents = 2%nat /\
    digits_only whole = true /\
    digits_only cents = true.
Proof.
  refine (amounts_have_two_decimals opacity_digits 1234.5%float false _ _ _ _).
  - vm_compute. reflexivity.
  - left. reflexivity.
Defined.

(** ** The rows at concrete responses *)

Lemma opacity_digits_plain : plain_digits opacity_digits.
Proof.
  intros x. unfold opacity_digits.
  destruct (PrimFloat.eqb x 0.5); [reflexivity|].
  destruct (PrimFloat.eqb x 0x1.6666666666666p-1); reflexivity.
Defined.

Lemma two_drugs_plain : plain_response two_drugs.
Proof. repeat constructor. Defined.



(** No rollback, at the three drugs of which the second has a single total:
    the two rows of DrugA and the first row of DrugB stay. *)
Lemma rows_before_the_error_witness :
  let s := {| years := [YearNumber 2020; YearNumber 2021; YearNumber 2022];
              total_spending := [1%float];
              avg_spending := [4%float; 5%float; 6%float] |} in
  let r := on_data opacity_digits always_half no_cells second_drug_short (loading [] []) in
  map cells (tableBody (snd r)) =
    [["DrugA"; "2020"; "$10.00"; "$5.00"];
     ["DrugA"; "2021"; "$20.00"; "$10.00"];
     ["DrugB"; "2020"; "$1.00"; "$4.00"]] /\
  fst r = Throw (undefined_property "toFixed") /\
  tableBody (snd r) =
    ((tableBody (loading [] []) ++
      flat_map (rows_of_drug opacity_digits no_cells second_drug_short) ["DrugA"]) ++
     series_rows opacity_digits no_cells "DrugB" s)%list /\
  List.length (series_rows opacity_digits no_cells "DrugB" s) =
    Nat.min (List.length (total_spending s)) (List.length (avg_spending s)).
Proof.
  cbv zeta. split; [vm_compute; reflexivity|].
  refine (rows_before_the_error_stay opacity_digits always_half no_cells second_drug_short
            (loading [] []) ["DrugA"] ["DrugC"] "DrugB" _ _ _ _ _).
  - vm_compute. reflexivity.
  - intros k s' [<-|[]] [= <-]. unfold short_series. simpl. lia.
  - reflexivity.
  - left. simpl. lia.
Defined.


(** The two drugs are loaded and DrugB is selected: its three rows show. *)
Lemma selecting_witness :
  let s := {| years := [YearNumber 2020; YearNumber 2021; YearNumber 2022];
              total_spending := [1%float; 2%float; 3%float];
              avg_spending := [4%float; 5%float; 6%float] |} in
  let st := run opacity_digits always_half accepts_all no_cells
              [FetchSettled (Fulfilled {| response_body := Json two_drugs |});
               DrugFilterChange "DrugB"] (loading [] []) in
  series_cells opacity_digits "DrugB" s =
    [["DrugB"; "2020"; "$1.00"; "$4.00"];
     ["DrugB"; "2021"; "$2.00"; "$5.00"];
     ["DrugB"; "2022"; "$3.00"; "$6.00"]] /\
  filter visible (tableBody st) = series_rows opacity_digits no_cells "DrugB" s /\
  map cells (filter visible (tableBody st)) = series_cells opacity_digits "DrugB" s /\
  List.length (filter visible (tableBody st)) = List.length (years s) /\
  map cells (tableBody st) = response_cells opacity_digits two_drugs /\
  uncaught st = [].
Proof.
  cbv zeta. split; [vm_compute; reflexivity|].
  refine (selecting_a_drug_shows_its_rows opacity_digits always_half accepts_all no_cells
            two_drugs [] "DrugB" _ opacity_digits_plain two_drugs_plain two_drugs_valid
            eq_refl _).
  discriminate.
Defined.
